(** * dados-meteorologicos: the incremental weather pipeline

    A shallow embedding of [main.py] (the pipeline driver and its six
    helpers) and of the geocode bootstrap of [initial-data.py], together
    with the parts of the Python run time the two scripts lean on:
    [datetime] and [timedelta] arithmetic, [datetime.strptime] for the one
    format the pipeline uses, the text form of a pandas [Timestamp], and
    the handful of [DataFrame] operations that appear in the source.

    Python values that the code can really hold in a variable are kept
    apart: a [DataFrame] instance, the class [pd.DataFrame] itself, and
    [None] are three different objects, and so are a JSON array and a JSON
    object.  Exceptions are values of [exn]; effects (the provider, the
    clock, the parquet writer) are threaded through an explicit [world]. *)

From Stdlib Require Import ZArith List String Ascii Bool Lia.
From Stdlib Require Import Floats.PrimFloat.
Import ListNotations.

Local Open Scope string_scope.
Local Open Scope Z_scope.

(** ** Exceptions and results *)

Inductive exn : Type :=
| TypeError
| AttributeError
| KeyError
| ValueError
| OverflowError
| FileNotFoundError
| OSError
| ProviderFailure (code : Z).

Inductive result (A : Type) : Type :=
| Ok (a : A)
| Raise (e : exn).

Arguments Ok {A} a.
Arguments Raise {A} e.

Definition bind_result {A B : Type} (r : result A) (k : A -> result B) : result B :=
  match r with
  | Ok a => k a
  | Raise e => Raise e
  end.


(** ** [datetime]: the proleptic Gregorian calendar of CPython

    The definitions follow [Lib/_pydatetime.py]; Python's [//] and [%] are
    floor division, which is [Z.div] and [Z.modulo] for a positive
    divisor. *)

Module Calendar.

Definition MINYEAR : Z := 1.
Definition MAXYEAR : Z := 9999.
Definition _MAXORDINAL : Z := 3652059.

Definition _is_leap (year : Z) : bool :=
  (year mod 4 =? 0) && (negb (year mod 100 =? 0) || (year mod 400 =? 0)).

Definition _days_before_year (year : Z) : Z :=
  let y := year - 1 in
  y * 365 + y / 4 - y / 100 + y / 400.

Definition _DAYS_IN_MONTH (month : Z) : Z :=
  match month with
  | 1 => 31 | 2 => 28 | 3 => 31 | 4 => 30 | 5 => 31 | 6 => 30
  | 7 => 31 | 8 => 31 | 9 => 30 | 10 => 31 | 11 => 30 | 12 => 31
  | _ => -1
  end.

Definition _DAYS_BEFORE_MONTH (month : Z) : Z :=
  match month with
  | 1 => 0 | 2 => 31 | 3 => 59 | 4 => 90 | 5 => 120 | 6 => 151
  | 7 => 181 | 8 => 212 | 9 => 243 | 10 => 273 | 11 => 304 | 12 => 334
  | _ => -1
  end.

Definition _days_in_month (year month : Z) : Z :=
  if (month =? 2) && _is_leap year then 29 else _DAYS_IN_MONTH month.

Definition _days_before_month (year month : Z) : Z :=
  _DAYS_BEFORE_MONTH month + (if (2 <? month) && _is_leap year then 1 else 0).

Definition _ymd2ord (year month day : Z) : Z :=
  _days_before_year year + _days_before_month year month + day.

Definition _DI400Y : Z := _days_before_year 401.
Definition _DI100Y : Z := _days_before_year 101.
Definition _DI4Y : Z := _days_before_year 5.

(** [_ord2ymd]: ordinal to (year, month, day), 0001-01-01 being day 1. *)
Definition _ord2ymd (n : Z) : Z * Z * Z :=
  let n := n - 1 in
  let n400 := n / _DI400Y in
  let n := n mod _DI400Y in
  let year := n400 * 400 + 1 in
  let n100 := n / _DI100Y in
  let n := n mod _DI100Y in
  let n4 := n / _DI4Y in
  let n := n mod _DI4Y in
  let n1 := n / 365 in
  let n := n mod 365 in
  let year := year + n100 * 100 + n4 * 4 + n1 in
  if (n1 =? 4) || (n100 =? 4) then (year - 1, 12, 31)
  else
    let leapyear := (n1 =? 3) && (negb (n4 =? 24) || (n100 =? 3)) in
    let month := Z.shiftr (n + 50) 5 in
    let preceding :=
      _DAYS_BEFORE_MONTH month + (if (2 <? month) && leapyear then 1 else 0) in
    if n <? preceding then
      let month := month - 1 in
      let preceding :=
        preceding
        - (_DAYS_IN_MONTH month + (if (month =? 2) && leapyear then 1 else 0)) in
      (year, month, n - preceding + 1)
    else (year, month, n - preceding + 1).

End Calendar.

Import Calendar.

(** A naive [datetime] (no [tzinfo]); the fields are the object's
    attributes. *)
Record datetime : Type := mk_datetime {
  year : Z;
  month : Z;
  day : Z;
  hour : Z;
  minute : Z;
  second : Z;
  microsecond : Z
}.

(** What the [datetime] constructor accepts ([_check_date_fields] and
    [_check_time_fields]); every datetime object satisfies it. *)
Definition datetime_ok (d : datetime) : bool :=
  (MINYEAR <=? year d) && (year d <=? MAXYEAR)
  && (1 <=? month d) && (month d <=? 12)
  && (1 <=? day d) && (day d <=? _days_in_month (year d) (month d))
  && (0 <=? hour d) && (hour d <=? 23)
  && (0 <=? minute d) && (minute d <=? 59)
  && (0 <=? second d) && (second d <=? 59)
  && (0 <=? microsecond d) && (microsecond d <=? 999999).

(** [datetime(y, m, d, H, M, S, us)]: raises [ValueError] on a field out of
    range. *)
Definition new_datetime (y m d H M S us : Z) : result datetime :=
  let r := mk_datetime y m d H M S us in
  if datetime_ok r then Ok r else Raise ValueError.

(** [a == b] on naive datetimes compares the fields. *)
Definition datetime_eqb (a b : datetime) : bool :=
  (year a =? year b) && (month a =? month b) && (day a =? day b)
  && (hour a =? hour b) && (minute a =? minute b) && (second a =? second b)
  && (microsecond a =? microsecond b).

(** [d.replace(minute=..., second=..., microsecond=...)]. *)
Definition replace_minute_second_microsecond
    (d : datetime) (minute' second' microsecond' : Z) : datetime :=
  mk_datetime (year d) (month d) (day d) (hour d) minute' second' microsecond'.

Definition toordinal (d : datetime) : Z :=
  _ymd2ord (year d) (month d) (day d).

(** [timedelta], normalised: [0 <= seconds < 86400], [0 <= microseconds < 10^6]. *)
Record timedelta : Type := mk_timedelta {
  td_days : Z;
  td_seconds : Z;
  td_microseconds : Z
}.

(** [timedelta(days=, hours=, minutes=, seconds=, microseconds=)] on
    integers. *)
Definition new_timedelta (days hours minutes seconds microseconds : Z) : timedelta :=
  let s := hours * 3600 + minutes * 60 + seconds + microseconds / 1000000 in
  let us := microseconds mod 1000000 in
  mk_timedelta (days + s / 86400) (s mod 86400) us.

Definition timedelta_hours (h : Z) : timedelta := new_timedelta 0 h 0 0 0.

Definition timedelta_add (a b : timedelta) : timedelta :=
  new_timedelta (td_days a + td_days b) 0 0
                (td_seconds a + td_seconds b)
                (td_microseconds a + td_microseconds b).

(** [datetime.__add__(self, other)] for a [timedelta]. *)
Definition datetime_add (self : datetime) (other : timedelta) : result datetime :=
  let delta :=
    timedelta_add
      (new_timedelta (toordinal self) (hour self) (minute self) (second self)
                     (microsecond self))
      other in
  let hour' := td_seconds delta / 3600 in
  let rem := td_seconds delta mod 3600 in
  let minute' := rem / 60 in
  let second' := rem mod 60 in
  if (0 <? td_days delta) && (td_days delta <=? _MAXORDINAL) then
    let '(y, m, d) := _ord2ymd (td_days delta) in
    Ok (mk_datetime y m d hour' minute' second' (td_microseconds delta))
  else Raise OverflowError.

(** ** Text: decimal formatting and [datetime.strptime] *)

Definition digit_char (d : Z) : ascii := ascii_of_nat (48 + Z.to_nat d).

Fixpoint decimal_digits (fuel : nat) (n : Z) (acc : string) : string :=
  match fuel with
  | O => acc
  | S fuel' =>
      let acc' := String (digit_char (n mod 10)) acc in
      if n <? 10 then acc' else decimal_digits fuel' (n / 10) acc'
  end.

(** [str(n)] for [n >= 0]; a number has no more decimal than binary digits. *)
Definition str_int (n : Z) : string :=
  decimal_digits (S (Z.to_nat (Z.log2 n))) n EmptyString.

Fixpoint zeros (k : nat) : string :=
  match k with
  | O => EmptyString
  | S k' => String "0" (zeros k')
  end.

Definition zfill (width : nat) (s : string) : string :=
  zeros (width - String.length s) ++ s.

(** ["%0<width>d" % n]. *)
Definition format_0d (width : nat) (n : Z) : string :=
  if n <? 0 then String "-" (zfill (width - 1) (str_int (- n)))
  else zfill width (str_int n).

(** [datetime.isoformat(sep)], [timespec='auto']: the microseconds are
    printed only when they are not zero. *)
Definition datetime_isoformat (sep : ascii) (d : datetime) : string :=
  format_0d 4 (year d) ++ "-" ++ format_0d 2 (month d) ++ "-" ++ format_0d 2 (day d)
  ++ String sep
       (format_0d 2 (hour d) ++ ":" ++ format_0d 2 (minute d) ++ ":"
        ++ format_0d 2 (second d)
        ++ (if microsecond d =? 0 then EmptyString else "." ++ format_0d 6 (microsecond d))).

(** The directives of a [strptime] format, and the regular expression
    CPython's [_strptime.TimeRE] gives each of them.  In the format of the
    pipeline every numeric field is followed by a separator that is not a
    digit (or by the end of the pattern), so the first alternative that
    matches is the one the regular expression engine settles on. *)
Inductive directive : Type :=
| pct_Y | pct_m | pct_d | pct_H | pct_M | pct_S
| literal (c : ascii)
| whitespace.

Definition in_class (lo hi : ascii) (c : ascii) : bool :=
  ((nat_of_ascii lo <=? nat_of_ascii c) && (nat_of_ascii c <=? nat_of_ascii hi))%nat.

Definition is_digit (c : ascii) : bool := in_class "0" "9" c.

Definition is_char (x : ascii) (c : ascii) : bool := Ascii.eqb x c.

(** [\s] on the ASCII range. *)
Definition is_space (c : ascii) : bool :=
  let n := nat_of_ascii c in
  ((n =? 32) || ((9 <=? n) && (n <=? 13)) || ((28 <=? n) && (n <=? 31)))%nat.

Definition digit_value (c : ascii) : Z := Z.of_nat (nat_of_ascii c) - 48.

Definition two_chars (p1 p2 : ascii -> bool) (s : string) : option (Z * string) :=
  match s with
  | String a (String b rest) =>
      if p1 a && p2 b then Some (10 * digit_value a + digit_value b, rest) else None
  | _ => None
  end.

Definition one_char (p : ascii -> bool) (s : string) : option (Z * string) :=
  match s with
  | String a rest => if p a then Some (digit_value a, rest) else None
  | _ => None
  end.

Definition or_else {A : Type} (x y : option A) : option A :=
  match x with
  | Some _ => x
  | None => y
  end.

Infix "<|>" := or_else (at level 55, left associativity).

(** [%Y]: [\d\d\d\d]. *)
Definition match_Y (s : string) : option (Z * string) :=
  match s with
  | String a (String b (String c (String d rest))) =>
      if is_digit a && is_digit b && is_digit c && is_digit d then
        Some (1000 * digit_value a + 100 * digit_value b
              + 10 * digit_value c + digit_value d, rest)
      else None
  | _ => None
  end.

(** [%m]: [1[0-2]|0[1-9]|[1-9]]. *)
Definition match_m (s : string) : option (Z * string) :=
  two_chars (is_char "1") (in_class "0" "2") s
  <|> two_chars (is_char "0") (in_class "1" "9") s
  <|> one_char (in_class "1" "9") s.

(** [%d]: [3[0-1]|[1-2]\d|0[1-9]|[1-9]| [1-9]]. *)
Definition match_d (s : string) : option (Z * string) :=
  two_chars (is_char "3") (in_class "0" "1") s
  <|> two_chars (in_class "1" "2") is_digit s
  <|> two_chars (is_char "0") (in_class "1" "9") s
  <|> one_char (in_class "1" "9") s
  <|> match s with
      | String a rest => if is_char " " a then one_char (in_class "1" "9") rest else None
      | _ => None
      end.

(** [%H]: [2[0-3]|[0-1]\d|\d]. *)
Definition match_H (s : string) : option (Z * string) :=
  two_chars (is_char "2") (in_class "0" "3") s
  <|> two_chars (in_class "0" "1") is_digit s
  <|> one_char is_digit s.

(** [%M]: [[0-5]\d|\d]. *)
Definition match_M (s : string) : option (Z * string) :=
  two_chars (in_class "0" "5") is_digit s <|> one_char is_digit s.

(** [%S]: [6[0-1]|[0-5]\d|\d]. *)
Definition match_S (s : string) : option (Z * string) :=
  two_chars (is_char "6") (in_class "0" "1") s
  <|> two_chars (in_class "0" "5") is_digit s
  <|> one_char is_digit s.

(** [\s+], greedy. *)
Fixpoint skip_spaces (s : string) : string :=
  match s with
  | String a rest => if is_space a then skip_spaces rest else s
  | EmptyString => s
  end.

Definition match_whitespace (s : string) : option string :=
  match s with
  | String a rest => if is_space a then Some (skip_spaces rest) else None
  | EmptyString => None
  end.

(** The groups of a match, with the defaults [_strptime] starts from. *)
Record found : Type := mk_found {
  found_Y : Z;
  found_m : Z;
  found_d : Z;
  found_H : Z;
  found_M : Z;
  found_S : Z
}.

Definition found_defaults : found := mk_found 1900 1 1 0 0 0.

Definition match_directive (dv : directive) (s : string) (f : found)
  : option (found * string) :=
  let store (set : Z -> found) (r : option (Z * string)) :=
    match r with
    | Some (v, rest) => Some (set v, rest)
    | None => None
    end in
  match dv with
  | pct_Y => store (fun v => mk_found v (found_m f) (found_d f) (found_H f) (found_M f) (found_S f)) (match_Y s)
  | pct_m => store (fun v => mk_found (found_Y f) v (found_d f) (found_H f) (found_M f) (found_S f)) (match_m s)
  | pct_d => store (fun v => mk_found (found_Y f) (found_m f) v (found_H f) (found_M f) (found_S f)) (match_d s)
  | pct_H => store (fun v => mk_found (found_Y f) (found_m f) (found_d f) v (found_M f) (found_S f)) (match_H s)
  | pct_M => store (fun v => mk_found (found_Y f) (found_m f) (found_d f) (found_H f) v (found_S f)) (match_M s)
  | pct_S => store (fun v => mk_found (found_Y f) (found_m f) (found_d f) (found_H f) (found_M f) v) (match_S s)
  | literal c =>
      match s with
      | String a rest => if is_char c a then Some (f, rest) else None
      | EmptyString => None
      end
  | whitespace =>
      match match_whitespace s with
      | Some rest => Some (f, rest)
      | None => None
      end
  end.

Fixpoint match_format (fmt : list directive) (s : string) (f : found)
  : option (found * string) :=
  match fmt with
  | [] => Some (f, s)
  | dv :: fmt' =>
      match match_directive dv s f with
      | Some (f', rest) => match_format fmt' rest f'
      | None => None
      end
  end.

(** [datetime.strptime(data_string, format)]: [ValueError] when the text
    does not match the format, when text is left over after the match, or
    when the fields do not make a date. *)
Definition strptime (data_string : string) (format : list directive) : result datetime :=
  match match_format format data_string found_defaults with
  | None => Raise ValueError
  | Some (f, EmptyString) =>
      new_datetime (found_Y f) (found_m f) (found_d f)
                   (found_H f) (found_M f) (found_S f) 0
  | Some (_, String _ _) => Raise ValueError
  end.

(** The format string ["%Y-%m-%d %H:%M:%S"]. *)
Definition fmt_Ymd_HMS : list directive :=
  [pct_Y; literal "-"; pct_m; literal "-"; pct_d; whitespace;
   pct_H; literal ":"; pct_M; literal ":"; pct_S].

(** ** pandas: [Timestamp], [NaT] and frames *)

(** A [Timestamp] is a [datetime] with nanoseconds ([0..999]) below the
    microsecond. *)
Record Timestamp : Type := mk_Timestamp {
  to_pydatetime : datetime;
  nanosecond : Z
}.

Definition Timestamp_ok (t : Timestamp) : bool :=
  datetime_ok (to_pydatetime t) && (0 <=? nanosecond t) && (nanosecond t <=? 999).

(** [Timestamp.isoformat(sep)]. *)
Definition Timestamp_isoformat (sep : ascii) (t : Timestamp) : string :=
  let base := datetime_isoformat sep (to_pydatetime t) in
  if nanosecond t =? 0 then base
  else if negb (microsecond (to_pydatetime t) =? 0)
       then base ++ format_0d 3 (nanosecond t)
       else base ++ "." ++ format_0d 9 (nanosecond t).

(** The position of a timestamp on the time line, in nanoseconds: what
    pandas compares. *)
Definition Timestamp_value (t : Timestamp) : Z :=
  let d := to_pydatetime t in
  ((((toordinal d * 24 + hour d) * 60 + minute d) * 60 + second d) * 1000000
   + microsecond d) * 1000 + nanosecond t.

(** A cell of a [datetime64] column. *)
Inductive time_cell : Type :=
| NaT
| TS (t : Timestamp).

(** [str(x)] of such a cell; [datetime.__str__] is [isoformat(sep=' ')]. *)
Definition str_time (c : time_cell) : string :=
  match c with
  | NaT => "NaT"
  | TS t => Timestamp_isoformat " " t
  end.

(** [Timestamp(year, month, day, hour, minute, second, microsecond,
    nanosecond)]. *)
Definition ts (y m d H M S us ns : Z) : Timestamp :=
  mk_Timestamp (mk_datetime y m d H M S us) ns.

Definition float : Type := PrimFloat.float.

(** A row of the Historical Dataset Store: the six columns the pipeline
    keeps. *)
Record row : Type := mk_row {
  city : string;
  time : time_cell;
  temp : float;
  rhum : float;
  prcp : float;
  wspd : float
}.

(** An hourly record as the provider returns it: indexed by [time], with
    all of Meteostat's columns. *)
Record hourly : Type := mk_hourly {
  h_time : Timestamp;
  h_temp : float;
  h_dwpt : float;
  h_rhum : float;
  h_prcp : float;
  h_snow : float;
  h_wdir : float;
  h_wspd : float;
  h_wpgt : float;
  h_pres : float;
  h_tsun : float;
  h_coco : float
}.

(** A [DataFrame] instance as the pipeline can tell frames apart.
    [Table rows] has the six columns of [row]; the row index, which
    [reset_index(drop=True)] renumbers, is the position in the list.
    [Blank] is a frame with no rows and no [city] column: [pd.DataFrame()]
    and the provider's empty answer.  The pipeline only asks such a frame
    whether it is [.empty] or for its [city] column, and the two answer
    alike. *)
Inductive frame : Type :=
| Blank
| Table (rows : list row).

Definition frame_rows (f : frame) : list row :=
  match f with
  | Blank => []
  | Table rows => rows
  end.

(** The objects the pipeline's frame variables can be bound to. *)
Inductive pyobj : Type :=
| PyNone                 (* None *)
| DataFrame_class        (* the class pd.DataFrame, not an instance *)
| DataFrame (f : frame). (* an instance *)

(** The truth value of [x.empty].  On an instance it is the boolean "no
    rows"; on the class the attribute is the property object itself, which
    is true like any plain object; [None] has no such attribute. *)
Definition truth_of_empty (x : pyobj) : result bool :=
  match x with
  | PyNone => Raise AttributeError
  | DataFrame_class => Ok true
  | DataFrame f => Ok (match frame_rows f with [] => true | _ :: _ => false end)
  end.

(** [x['city']]: a class object and [None] cannot be subscripted. *)
Definition getitem_city (x : pyobj) : result (list string) :=
  match x with
  | PyNone => Raise TypeError
  | DataFrame_class => Raise TypeError
  | DataFrame Blank => Raise KeyError
  | DataFrame (Table rows) => Ok (map city rows)
  end.

(** [x[x['city'] == city_name]]: the rows whose city is [city_name]. *)
Definition rows_of_city (x : pyobj) (city_name : string) : result (list row) :=
  bind_result (getitem_city x) (fun _ =>
  match x with
  | DataFrame (Table rows) =>
      Ok (filter (fun r => String.eqb (city r) city_name) rows)
  | _ => Raise TypeError
  end).

(** [Series.max()] of a [datetime64] column: [NaT] cells are skipped, and
    the maximum of no timestamp at all is [NaT]. *)
Definition later (a b : time_cell) : time_cell :=
  match a, b with
  | NaT, _ => b
  | _, NaT => a
  | TS x, TS y => if Timestamp_value x <? Timestamp_value y then b else a
  end.

Definition Series_max (s : list time_cell) : time_cell :=
  fold_left later s NaT.

(** [pd.concat([a, b])] followed by [reset_index(drop=True)]. *)
Definition pd_concat (a b : pyobj) : result pyobj :=
  match a, b with
  | DataFrame fa, DataFrame fb =>
      Ok (DataFrame (Table (frame_rows fa ++ frame_rows fb)%list))
  | _, _ => Raise TypeError
  end.

(** ** JSON values, as [json.load] returns them

    A JSON object becomes a [dict]; [JObject] holds its items in
    iteration order. *)
#[local] Unset Elimination Schemes.
Inductive json : Type :=
| JNull
| JBool (b : bool)
| JNumber (x : float)
| JString (s : string)
| JArray (l : list json)
| JObject (items : list (string * json)).
#[local] Set Elimination Schemes.

(** [len(j)]. *)
Definition json_len (j : json) : result nat :=
  match j with
  | JString s => Ok (String.length s)
  | JArray l => Ok (List.length l)
  | JObject items => Ok (List.length items)
  | JNull | JBool _ | JNumber _ => Raise TypeError
  end.

(** [j.items()]: only a [dict] has the method. *)
Definition dict_items (j : json) : result (list (string * json)) :=
  match j with
  | JObject items => Ok items
  | _ => Raise AttributeError
  end.

Fixpoint assoc (k : string) (items : list (string * json)) : option json :=
  match items with
  | [] => None
  | (k', v) :: items' => if String.eqb k k' then Some v else assoc k items'
  end.

(** [j[k]] for a string key [k]. *)
Definition getitem (j : json) (k : string) : result json :=
  match j with
  | JObject items =>
      match assoc k items with
      | Some v => Ok v
      | None => Raise KeyError
      end
  | _ => Raise TypeError
  end.

(** ** The outside world *)

Inductive file : Type :=
| Missing
| Unreadable                 (* bytes that are neither parquet nor UTF-8 text *)
| ParquetFile (rows : list row)
| JsonFile (j : json)
| TextFile.                  (* UTF-8 text that is not JSON: an empty file, say *)

(** What [Hourly(Point(lat, lon), start, end).fetch()] does. *)
Inductive response : Type :=
| Fails (e : exn)
| Returns (data : list hourly).

Inductive event : Type :=
| Fetch (latitude longitude : json) (start end_ : datetime)
| Save (path : string) (f : frame).

(** The part of the world a run changes: how often the clock was read,
    and what was asked of the provider and written to disk, oldest
    first. *)
Record world : Type := mk_world {
  clock_reads : nat;
  events : list event
}.

Definition M (A : Type) : Type := world -> result A * world.

Definition ret {A : Type} (a : A) : M A := fun w => (Ok a, w).

Definition raise {A : Type} (e : exn) : M A := fun w => (Raise e, w).

Definition bind {A B : Type} (m : M A) (k : A -> M B) : M B :=
  fun w =>
    match m w with
    | (Ok a, w') => k a w'
    | (Raise e, w') => (Raise e, w')
    end.

Definition lift {A : Type} (r : result A) : M A := fun w => (r, w).

(** [try: body except Exception as e: handler]. *)
Definition try_except {A : Type} (body : M A) (handler : exn -> M A) : M A :=
  fun w =>
    match body w with
    | (Ok a, w') => (Ok a, w')
    | (Raise e, w') => handler e w'
    end.

Definition emit (ev : event) : M unit :=
  fun w => (Ok tt, mk_world (clock_reads w) (events w ++ [ev])%list).

Declare Scope py_scope.
Delimit Scope py_scope with py.
Notation "x <- m ;; k" := (bind m (fun x => k))
  (at level 61, m at next level, right associativity) : py_scope.
Notation "m ;; k" := (bind m (fun _ => k))
  (at level 61, right associativity) : py_scope.

Local Open Scope py_scope.

Section Pipeline.

(** The disk when the run starts. *)
Variable files : string -> file.
(** [datetime.now()], by the number of earlier readings. *)
Variable clock : nat -> datetime.
(** The weather provider. *)
Variable meteostat : json -> json -> datetime -> datetime -> response.
(** [DataFrame.to_parquet]: the error of a failed write, if any. *)
Variable to_parquet_error : string -> frame -> option exn.

Definition datetime_now : M datetime :=
  fun w => (Ok (clock (clock_reads w)), mk_world (S (clock_reads w)) (events w)).

Definition Hourly_fetch (latitude longitude : json) (start end_ : datetime)
  : M (list hourly) :=
  emit (Fetch latitude longitude start end_) ;;
  match meteostat latitude longitude start end_ with
  | Fails e => raise e
  | Returns data => ret data
  end.

Definition read_parquet (path : string) : result frame :=
  match files path with
  | ParquetFile rows => Ok (Table rows)
  | Missing => Raise FileNotFoundError
  | Unreadable | JsonFile _ | TextFile => Raise OSError
  end.

(** [json.load] of the file opened as UTF-8 text: [UnicodeDecodeError]
    and [JSONDecodeError] are both [ValueError]s. *)
Definition json_load (path : string) : result json :=
  match files path with
  | JsonFile j => Ok j
  | Missing => Raise FileNotFoundError
  | Unreadable | ParquetFile _ | TextFile => Raise ValueError
  end.

(** main.py, lines 11-29.  The handler binds the name to [pd.DataFrame],
    the class: line 27 has no call parentheses. *)
Definition load_parquet_weather_data (parquet_file_path : string) : pyobj :=
  match read_parquet parquet_file_path with
  | Ok parquet_weather_data => DataFrame parquet_weather_data
  | Raise _ => DataFrame_class
  end.

(** main.py, lines 32-56.  Line 44 is outside the [try]; the handler of
    lines 50-52 logs and re-raises. *)
Definition get_last_datetime_by_city (parquet_weather_data : pyobj)
    (city_name : string) : result datetime :=
  bind_result (rows_of_city parquet_weather_data city_name) (fun city_weather_data =>
  match city_weather_data with
  | _ :: _ =>
      let last_datetime_by_city := str_time (Series_max (map time city_weather_data)) in
      strptime last_datetime_by_city fmt_Ymd_HMS
  | [] => Ok (mk_datetime 2021 1 1 0 0 0 0)
  end).

(** main.py, lines 59-77.  [len(cities_geocode)] in the log line is
    inside the [try]; the handler re-raises. *)
Definition load_cities_info_from_json (cities_geocode_file : string) : result json :=
  bind_result (json_load cities_geocode_file) (fun cities_geocode =>
  bind_result (json_len cities_geocode) (fun _ =>
  Ok cities_geocode)).

(** Lines 110-116: the [city] column, [reset_index()], and the choice of
    columns. *)
Definition normalise (city_name : string) (data : list hourly) : frame :=
  Table (map (fun h => mk_row city_name (TS (h_time h)) (h_temp h) (h_rhum h)
                              (h_prcp h) (h_wspd h)) data).

(** main.py, lines 80-121.  The [return] of line 121 is inside the [if]
    of line 99: when the window is empty the function falls off its end
    and returns [None]. *)
Definition fetch_hourly_data_from_meteostat_by_city
    (start_datetime end_datetime : datetime) (city_name : string)
    (latitude longitude : json) : M pyobj :=
  let end_datetime := replace_minute_second_microsecond end_datetime 0 0 0 in
  start_datetime <- lift (datetime_add start_datetime (timedelta_hours 1)) ;;
  if negb (datetime_eqb start_datetime end_datetime) then
    try_except
      (meteostat_data_by_city <-
         Hourly_fetch latitude longitude start_datetime end_datetime ;;
       match meteostat_data_by_city with
       | [] => ret (DataFrame Blank)
       | _ :: _ => ret (DataFrame (normalise city_name meteostat_data_by_city))
       end)
      (fun _ => ret (DataFrame Blank))
  else ret PyNone.

(** main.py, lines 124-148.  The log line 137 reads
    [meteostat_data_by_city['city'].iloc[0]]; the handler re-raises. *)
Definition concat_weather_data_by_city
    (meteostat_data_by_city parquet_weather_data : pyobj) : result pyobj :=
  bind_result (truth_of_empty meteostat_data_by_city) (fun delta_empty =>
  if negb delta_empty then
    bind_result (getitem_city meteostat_data_by_city) (fun _ =>
    bind_result (truth_of_empty parquet_weather_data) (fun store_empty =>
    if store_empty then Ok meteostat_data_by_city
    else pd_concat parquet_weather_data meteostat_data_by_city))
  else Ok parquet_weather_data).

(** main.py, lines 151-165.  On the class, [to_parquet] takes the file
    name for [self] and pandas refuses it with [ValueError]; the handler
    re-raises. *)
Definition save_concatenated_data_to_parquet
    (parquet_weather_data : pyobj) (parquet_file_name : string) : M unit :=
  match parquet_weather_data with
  | PyNone => raise AttributeError
  | DataFrame_class => raise ValueError
  | DataFrame f =>
      match to_parquet_error parquet_file_name f with
      | Some e => raise e
      | None => emit (Save parquet_file_name f)
      end
  end.

(** The loop of lines 184-197 over [cities_infos.items()], returning the
    store it ends with. *)
Fixpoint main_loop (items : list (string * json)) (parquet_weather_data : pyobj)
    (parquet_file_name : string) : M pyobj :=
  match items with
  | [] => ret parquet_weather_data
  | (name, infos) :: items' =>
      latitude <- lift (getitem infos "latitude") ;;
      longitude <- lift (getitem infos "longitude") ;;
      end_datetime <- datetime_now ;;
      last_datetime_by_city <-
        lift (get_last_datetime_by_city parquet_weather_data name) ;;
      meteostat_data_by_city <-
        fetch_hourly_data_from_meteostat_by_city
          last_datetime_by_city end_datetime name latitude longitude ;;
      skip <- lift (truth_of_empty meteostat_data_by_city) ;;
      if skip then main_loop items' parquet_weather_data parquet_file_name
      else
        parquet_weather_data <-
          lift (concat_weather_data_by_city meteostat_data_by_city
                                            parquet_weather_data) ;;
        save_concatenated_data_to_parquet parquet_weather_data parquet_file_name ;;
        main_loop items' parquet_weather_data parquet_file_name
  end.

(** main.py, lines 168-198. *)
Definition main : M pyobj :=
  let parquet_file_name := "weather_data.parquet" in
  let cities_geocode_file := "cities_geocode.json" in
  let parquet_weather_data := load_parquet_weather_data parquet_file_name in
  cities_infos <- lift (load_cities_info_from_json cities_geocode_file) ;;
  items <- lift (dict_items cities_infos) ;;
  main_loop items parquet_weather_data parquet_file_name.

End Pipeline.

(** ** The geocode bootstrap ([initial-data.py]) *)

Module InitialData.

Definition write_file (path : string) (content : file) (files : string -> file)
  : string -> file :=
  fun p => if String.eqb p path then content else files p.

Section Bootstrap.

(** [Nominatim.geocode(query)]: a location, [None] when nothing is
    found, or an exception. *)
Variable geocode : string -> result (option (float * float)).

(** initial-data.py, lines 41-76: read the list, append one single-key
    mapping, write the list back.  Line 63 catches [FileNotFoundError]
    and [JSONDecodeError]: a missing file, or one whose text is not JSON,
    counts as the empty list.  Bytes that are not UTF-8 text raise
    [UnicodeDecodeError], a [ValueError] that line 63 lets through, and
    nothing is written. *)
Definition get_geolocation (country_name city_name : string)
    (files : string -> file) : result (string -> file) :=
  let local := city_name ++ ", " ++ country_name in
  bind_result (geocode local) (fun localizacao =>
  match localizacao with
  | Some (latitude, longitude) =>
      let data :=
        JObject [(local, JObject [("latitude", JNumber latitude);
                                  ("longitude", JNumber longitude)])] in
      bind_result
        (match files "cities_geocode.json" with
         | JsonFile j => Ok j
         | Missing | TextFile => Ok (JArray [])
         | Unreadable | ParquetFile _ => Raise ValueError
         end) (fun all_data =>
      match all_data with
      | JArray l =>
          Ok (write_file "cities_geocode.json"
                         (JsonFile (JArray (l ++ [data])%list)) files)
      | _ => Raise AttributeError
      end)
  | None => Ok files
  end).

(** Lines 81-83: one lookup per city of the list, in order. *)
Fixpoint geocode_cities (cities : list string) (files : string -> file)
  : result (string -> file) :=
  match cities with
  | [] => Ok files
  | c :: cities' =>
      bind_result (get_geolocation "Brasil" c files) (geocode_cities cities')
  end.

End Bootstrap.

End InitialData.

(** ** Vocabulary of the statements *)

(** ["now" truncated to the hour]: the window end of line 95. *)
Definition truncate_to_hour (d : datetime) : datetime :=
  replace_minute_second_microsecond d 0 0 0.

(** The rows of a store that belong to entity [E]. *)
Definition rows_for (E : string) (rows : list row) : list row :=
  filter (fun r => String.eqb (city r) E) rows.

(** A timestamp with nothing below the second. *)
Definition whole_second (t : Timestamp) : bool :=
  (microsecond (to_pydatetime t) =? 0) && (nanosecond t =? 0).

(** The cell [c] is a timestamp at or after [t]. *)
Definition dominates (c : time_cell) (t : Timestamp) : Prop :=
  exists m, c = TS m /\ Timestamp_value t <= Timestamp_value m.

(** What the fetch hands back for an answer of the provider. *)
Definition delta_of_response (city_name : string) (r : response) : frame :=
  match r with
  | Returns (h :: data) => normalise city_name (h :: data)
  | Returns [] | Fails _ => Blank
  end.

(** The world after one more call of the provider. *)
Definition after_fetch (w : world) (latitude longitude : json) (start end_ : datetime)
  : world :=
  mk_world (clock_reads w) (events w ++ [Fetch latitude longitude start end_])%list.

(** "Returns an empty sequence without invoking the external provider":
    the run ends in a frame without rows, and the record of provider calls
    and writes is the one before the run. *)
Definition empty_without_provider_call (run : result pyobj * world) (before : world)
  : Prop :=
  (exists f, fst run = Ok (DataFrame f) /\ frame_rows f = [])
  /\ events (snd run) = events before.

(** The text of a datetime up to the seconds, followed by [tail]. *)
Definition isoformat_seconds (sep : ascii) (d : datetime) (tail : string) : string :=
  format_0d 4 (year d) ++ "-" ++ format_0d 2 (month d) ++ "-" ++ format_0d 2 (day d)
  ++ String sep
       (format_0d 2 (hour d) ++ ":" ++ format_0d 2 (minute d) ++ ":"
        ++ format_0d 2 (second d) ++ tail).

Definition isoformat_fraction (d : datetime) : string :=
  if microsecond d =? 0 then EmptyString else "." ++ format_0d 6 (microsecond d).

Definition four_digits (n : Z) : string :=
  String (digit_char (n / 1000))
    (String (digit_char (n / 100 mod 10))
       (String (digit_char (n / 10 mod 10))
          (String (digit_char (n mod 10)) EmptyString))).

(** ** Sample data *)

Module Sample.

Local Open Scope float_scope.

Definition obs (c : string) (t : time_cell) : row :=
  mk_row c t 21.5 60 0 7.25.

Definition reading (t : Timestamp) : hourly :=
  mk_hourly t 21.5 14.125 60 0 0 90 7.25 15 1013.25 0 1.

Definition uberaba : string := "Uberaba, Brasil".
Definition araguari : string := "Araguari, Brasil".
Definition frutal : string := "Frutal, Brasil".
Definition prata : string := "Prata, Brasil".

(** Two whole-hour rows for Uberaba, a row without a time for Araguari,
    a half-second row for Frutal, and nothing for Prata. *)
Definition store : list row :=
  [ obs uberaba (TS (ts 2024 1 1 9 0 0 0 0));
    obs uberaba (TS (ts 2024 1 1 10 0 0 0 0));
    obs araguari NaT;
    obs frutal (TS (ts 2024 1 1 10 0 0 500000 0)) ].

Definition delta : list row :=
  [ obs uberaba (TS (ts 2024 1 1 11 0 0 0 0));
    obs uberaba (TS (ts 2024 1 1 12 0 0 0 0)) ].

Definition latitude : json := JNumber (-19.75).
Definition longitude : json := JNumber (-47.9375).

Definition infos : json :=
  JObject [("latitude", latitude); ("longitude", longitude)].

(** The geocode file as [main.py] reads it: one object, city to
    coordinates. *)
Definition cities_as_dict : json := JObject [(uberaba, infos)].

Definition w0 : world := mk_world 0 [].

Definition epoch : datetime := mk_datetime 2021 1 1 0 0 0 0.

Definition half_past (H : Z) : datetime := mk_datetime 2024 1 1 H 30 15 250.

Definition on_the_hour (H : Z) : datetime := mk_datetime 2024 1 1 H 0 0 0.

(** A provider that has nothing, one that is down, and one that answers
    with the hours 11:00 and 12:00. *)
Definition silent (_ _ : json) (_ _ : datetime) : response := Returns [].

Definition down (_ _ : json) (_ _ : datetime) : response :=
  Fails (ProviderFailure 503).

Definition two_hours (_ _ : json) (_ _ : datetime) : response :=
  Returns [reading (ts 2024 1 1 11 0 0 0 0); reading (ts 2024 1 1 12 0 0 0 0)].

Definition disk_ok (_ : string) (_ : frame) : option exn := None.

(** A disk with the geocode file [j] and, when [rows] is given, a
    store. *)
Definition disk (j : json) (rows : option (list row)) (path : string) : file :=
  if String.eqb path "cities_geocode.json" then JsonFile j
  else if String.eqb path "weather_data.parquet" then
         match rows with
         | Some rows => ParquetFile rows
         | None => Missing
         end
       else Missing.

Definition nothing_on_disk (_ : string) : file := Missing.

Definition geocoder (_ : string) : result (option (float * float)) :=
  Ok (Some (-19.75, -47.9375)).

End Sample.

(** ** Reading the record of a run *)

Definition is_fetch (ev : event) : bool :=
  match ev with
  | Fetch _ _ _ _ => true
  | Save _ _ => false
  end.

Definition is_save (ev : event) : bool :=
  match ev with
  | Fetch _ _ _ _ => false
  | Save _ _ => true
  end.

(** The frame of the latest write, if there was one. *)
Fixpoint last_saved (evs : list event) : option frame :=
  match evs with
  | [] => None
  | ev :: evs' =>
      match last_saved evs' with
      | Some f => Some f
      | None =>
          match ev with
          | Save _ f => Some f
          | Fetch _ _ _ _ => None
          end
      end
  end.

(** A write of a frame with at least one row to [path]; a provider call
    counts as such. *)
Definition writes_rows_to (path : string) (ev : event) : Prop :=
  match ev with
  | Fetch _ _ _ _ => True
  | Save p f => p = path /\ frame_rows f <> []
  end.

(** The rows an object holds when it is a frame. *)
Definition rows_of (x : pyobj) : list row :=
  match x with
  | DataFrame f => frame_rows f
  | PyNone | DataFrame_class => []
  end.

(** What one turn of the loop of lines 184-197 adds to the record when the
    loop goes on, and the store it hands to the next turn.  The provider
    was asked for the entity [name]; its answer had no rows, or its rows
    were merged after those of the store and the merged frame written to
    [path]. *)
Inductive turn (meteostat : json -> json -> datetime -> datetime -> response)
    (name : string) (path : string) (store : pyobj)
  : list event -> pyobj -> Prop :=
| turn_skip (lat lon : json) (s e : datetime) :
    frame_rows (delta_of_response name (meteostat lat lon s e)) = [] ->
    turn meteostat name path store [Fetch lat lon s e] store
| turn_save (lat lon : json) (s e : datetime) (f : frame) :
    frame_rows (delta_of_response name (meteostat lat lon s e)) <> [] ->
    frame_rows f
    = (rows_of store
       ++ frame_rows (delta_of_response name (meteostat lat lon s e)))%list ->
    turn meteostat name path store [Fetch lat lon s e; Save path f] (DataFrame f).

(** The rows that the provider calls of a record brought in: the rows of
    the answer to each call, in the order of the calls, each under the
    name of the entity of its turn. *)
Fixpoint fetched_rows (meteostat : json -> json -> datetime -> datetime -> response)
    (names : list string) (calls : list event) : list row :=
  match names, calls with
  | name :: names', Fetch lat lon s e :: calls' =>
      (frame_rows (delta_of_response name (meteostat lat lon s e))
       ++ fetched_rows meteostat names' calls')%list
  | _, _ => []
  end.

(** What a turn that raises has added to the record: nothing, or the one
    call of the provider. *)
Inductive aborted : list event -> Prop :=
| aborted_before_fetch : aborted []
| aborted_after_fetch (lat lon : json) (s e : datetime) :
    aborted [Fetch lat lon s e].

(** The position of a datetime on the time line. *)
Definition datetime_value (d : datetime) : Z :=
  Timestamp_value (mk_Timestamp d 0).

(** Every time cell of the rows is [NaT] or a well-formed timestamp. *)
Definition times_ok (rows : list row) : Prop :=
  forall r t, In r rows -> time r = TS t -> Timestamp_ok t = true.

(** One entry of the geocode file as the bootstrap writes it. *)
Definition geocode_entry (local : string) (latitude longitude : float) : json :=
  JObject [(local, JObject [("latitude", JNumber latitude);
                            ("longitude", JNumber longitude)])].

(** The list a lookup of the bootstrap starts from, by the content of the
    geocode file (lines 60-65); [None] when the lookup cannot go on. *)
Definition entries_on_disk (f : file) : option (list json) :=
  match f with
  | JsonFile (JArray l) => Some l
  | Missing | TextFile => Some []
  | JsonFile _ | Unreadable | ParquetFile _ => None
  end.

(** The entries the bootstrap writes for a list of cities: one for every
    city the geocoder finds, in the order of the list. *)
Definition found_entries (geocode : string -> result (option (float * float)))
    (cities : list string) : list json :=
  flat_map (fun c =>
              match geocode (c ++ ", " ++ "Brasil") with
              | Ok (Some (latitude, longitude)) =>
                  [geocode_entry (c ++ ", " ++ "Brasil") latitude longitude]
              | Ok None | Raise _ => []
              end) cities.

(** ** The backfill of the bootstrap ([initial-data.py], lines 86-125) *)

Module Backfill.

(** Reading a local variable that no assignment has reached raises
    [UnboundLocalError], next to the exceptions of the pipeline. *)
Inductive raised : Type :=
| Exn (e : exn)
| UnboundLocalError (variable : string).

Inductive outcome (A : Type) : Type :=
| Done (a : A)
| Failed (r : raised).

Arguments Done {A} a.
Arguments Failed {A} r.

(** The locals [name], [latitude] and [longitude] of [main], unbound until
    the inner loop of line 100 has run once. *)
Record locals : Type := mk_locals {
  var_name : option string;
  var_latitude : option json;
  var_longitude : option json
}.

Definition unbound : locals := mk_locals None None None.

(** Lines 87-88. *)
Definition start : datetime := mk_datetime 2021 1 1 20 0 0 0.
Definition end_ : datetime := mk_datetime 2024 11 15 0 0 0 0.

(** [for city in cities_geocode]: what iterating the loaded value
    yields.  A dict yields its keys, a string its characters. *)
Definition iterate (j : json) : result (list json) :=
  match j with
  | JArray l => Ok l
  | JObject items => Ok (map (fun kv => JString (fst kv)) items)
  | JString s => Ok (map (fun c => JString (String c EmptyString)) (list_ascii_of_string s))
  | JNull | JBool _ | JNumber _ => Raise TypeError
  end.

(** Lines 100-103: every item of the mapping rebinds the three locals,
    so the last one stays. *)
Fixpoint bind_coords (items : list (string * json)) (vars : locals) : result locals :=
  match items with
  | [] => Ok vars
  | (name, coords) :: items' =>
      bind_result (getitem coords "latitude") (fun _ =>
      bind_result (getitem coords "latitude") (fun latitude =>
      bind_result (getitem coords "longitude") (fun longitude =>
      bind_coords items' (mk_locals (Some name) (Some latitude) (Some longitude)))))
  end.

Definition read_var {A : Type} (variable : string) (v : option A) : outcome A :=
  match v with
  | Some a => Done a
  | None => Failed (UnboundLocalError variable)
  end.

Definition of_result {A : Type} (r : result A) : outcome A :=
  match r with
  | Ok a => Done a
  | Raise e => Failed (Exn e)
  end.

Section Loop.

Variable meteostat : json -> json -> datetime -> datetime -> response.

(** The body of the loop of line 98 for one element, from the locals and
    the accumulated frame to the new ones.  The provider is called
    outside any [try]. *)
Definition backfill_city (city : json) (vars : locals) (df_weather_data : pyobj)
    (w : world) : outcome (locals * pyobj) * world :=
  match bind_result (dict_items city) (fun items => bind_coords items vars) with
  | Raise e => (Failed (Exn e), w)
  | Ok vars =>
      match read_var "latitude" (var_latitude vars) with
      | Failed r => (Failed r, w)
      | Done latitude =>
      match read_var "longitude" (var_longitude vars) with
      | Failed r => (Failed r, w)
      | Done longitude =>
          let w := after_fetch w latitude longitude start end_ in
          match meteostat latitude longitude start end_ with
          | Fails e => (Failed (Exn e), w)
          | Returns [] => (Done (vars, df_weather_data), w)
          | Returns (h :: data) =>
              match read_var "name" (var_name vars) with
              | Failed r => (Failed r, w)
              | Done name =>
                  let data := DataFrame (normalise name (h :: data)) in
                  match truth_of_empty df_weather_data with
                  | Raise e => (Failed (Exn e), w)
                  | Ok true => (Done (vars, data), w)
                  | Ok false => (of_result
                                   (bind_result (pd_concat df_weather_data data)
                                      (fun df => Ok (vars, df))), w)
                  end
              end
          end
      end
      end
  end.

Fixpoint backfill_loop (cities_geocode : list json) (vars : locals)
    (df_weather_data : pyobj) (w : world) : outcome pyobj * world :=
  match cities_geocode with
  | [] => (Done df_weather_data, w)
  | city :: cities' =>
      match backfill_city city vars df_weather_data w with
      | (Done (vars, df_weather_data), w) =>
          backfill_loop cities' vars df_weather_data w
      | (Failed r, w) => (Failed r, w)
      end
  end.

(** [DataFrame.to_parquet]: the error of a failed write, if any. *)
Variable to_parquet_error : string -> frame -> option exn.

(** Line 125: [df_weather_data.to_parquet('weather_data.parquet')].  When
    no answer had rows the variable still holds the class; the call then
    takes the file name for [self] and pandas raises [ValueError]. *)
Definition write_backfill (df_weather_data : pyobj) (w : world)
  : outcome unit * world :=
  match df_weather_data with
  | PyNone => (Failed (Exn AttributeError), w)
  | DataFrame_class => (Failed (Exn ValueError), w)
  | DataFrame f =>
      match to_parquet_error "weather_data.parquet" f with
      | Some e => (Failed (Exn e), w)
      | None =>
          (Done tt,
           mk_world (clock_reads w)
                    (events w ++ [Save "weather_data.parquet" f])%list)
      end
  end.

(** Lines 89-125: the frame variable starts as the class [pd.DataFrame]
    (line 89), the geocode file is loaded without a handler (lines 93-94),
    the loop runs over it, and what the variable holds is written. *)
Definition backfill (files : string -> file) (w : world) : outcome unit * world :=
  match bind_result (json_load files "cities_geocode.json") iterate with
  | Raise e => (Failed (Exn e), w)
  | Ok cities_geocode =>
      match backfill_loop cities_geocode unbound DataFrame_class w with
      | (Done df_weather_data, w) => write_backfill df_weather_data w
      | (Failed r, w) => (Failed r, w)
      end
  end.

End Loop.

End Backfill.

(** ** Vocabulary for the backfill *)

(** A city as the bootstrap knows it: the text it looked up and the
    coordinates it found. *)
Definition place : Type := (string * (float * float))%type.

Definition place_entry (p : place) : json :=
  geocode_entry (fst p) (fst (snd p)) (snd (snd p)).

Definition place_call (p : place) : event :=
  Fetch (JNumber (fst (snd p))) (JNumber (snd (snd p))) Backfill.start Backfill.end_.

(** What the frame variable of the backfill holds once [rows] have been
    gathered: the class of line 89 until the first row, a frame after. *)
Definition gathered (rows : list row) : pyobj :=
  match rows with
  | [] => DataFrame_class
  | _ :: _ => DataFrame (Table rows)
  end.

Definition place_rows (meteostat : json -> json -> datetime -> datetime -> response)
    (p : place) : list row :=
  frame_rows
    (delta_of_response (fst p)
       (meteostat (JNumber (fst (snd p))) (JNumber (snd (snd p)))
                  Backfill.start Backfill.end_)).

(** ** More sample data *)

Module More.

Local Open Scope float_scope.

(** A disk that refuses every write. *)
Definition disk_full (_ : string) (_ : frame) : option exn := Some OSError.

(** A geocoder that knows Uberaba and nothing else. *)
Definition picky_geocoder (q : string) : result (option (float * float)) :=
  if String.eqb q "Uberaba, Brasil" then Ok (Some (-19.75, -47.9375)) else Ok None.

Definition uberaba_place : place := ("Uberaba, Brasil"%string, (-19.75, -47.9375)).

(** An entry of the geocode file without its longitude. *)
Definition half_entry : json := JObject [("latitude", JNumber (-19.75))].

End More.

(** * Proofs *)

(** ** Tactics *)

(** Case analysis on a natural number known to be below [bound]. *)
Tactic Notation "enumerate" ident(k) "below" integer(bound) "by" tactic3(tac) :=
  do bound (destruct k as [|k]; [solve [tac | lia] |]); lia.

Ltac div_lia := Z.div_mod_to_equations; lia.

Lemma Z_as_nat (n : Z) : 0 <= n -> exists k : nat, n = Z.of_nat k.
Proof. intros H. exists (Z.to_nat n). lia. Qed.

(** ** Each directive reads back what [%02d] and [%04d] print *)

Lemma match_m_format (n : Z) (rest : string) :
  1 <= n <= 12 -> match_m (format_0d 2 n ++ rest) = Some (n, rest).
Proof.
  intros H. destruct (Z_as_nat n) as [k ->]; [lia|].
  enumerate k below 13 by (vm_compute; reflexivity).
Qed.

Lemma match_M_format (n : Z) (rest : string) :
  0 <= n <= 59 -> match_M (format_0d 2 n ++ rest) = Some (n, rest).
Proof.
  intros H. destruct (Z_as_nat n) as [k ->]; [lia|].
  enumerate k below 60 by (vm_compute; reflexivity).
Qed.

Lemma match_d_format (n : Z) (rest : string) :
  1 <= n <= 31 -> match_d (format_0d 2 n ++ rest) = Some (n, rest).
Proof.
  intros H. destruct (Z_as_nat n) as [k ->]; [lia|].
  enumerate k below 32 by (vm_compute; reflexivity).
Qed.

Lemma match_H_format (n : Z) (rest : string) :
  0 <= n <= 23 -> match_H (format_0d 2 n ++ rest) = Some (n, rest).
Proof.
  intros H. destruct (Z_as_nat n) as [k ->]; [lia|].
  enumerate k below 24 by (vm_compute; reflexivity).
Qed.

Lemma match_S_format (n : Z) (rest : string) :
  0 <= n <= 59 -> match_S (format_0d 2 n ++ rest) = Some (n, rest).
Proof.
  intros H. destruct (Z_as_nat n) as [k ->]; [lia|].
  enumerate k below 60 by (vm_compute; reflexivity).
Qed.

Lemma skip_spaces_format (n : Z) (rest : string) :
  0 <= n <= 23 -> skip_spaces (format_0d 2 n ++ rest) = format_0d 2 n ++ rest.
Proof.
  intros H. destruct (Z_as_nat n) as [k ->]; [lia|].
  enumerate k below 24 by (vm_compute; reflexivity).
Qed.

Lemma format_0d_4_table :
  forallb (fun k => String.eqb (format_0d 4 (Z.of_nat k)) (four_digits (Z.of_nat k)))
          (seq 0 (Z.to_nat 10000)) = true.
Proof. vm_compute. reflexivity. Qed.

Lemma format_0d_4 (n : Z) : 0 <= n <= 9999 -> format_0d 4 n = four_digits n.
Proof.
  intros H. destruct (Z_as_nat n) as [k ->]; [lia|].
  apply String.eqb_eq.
  apply (proj1 (forallb_forall _ _) format_0d_4_table).
  apply in_seq. lia.
Qed.

Lemma digit_char_digit (k : Z) :
  0 <= k <= 9 -> is_digit (digit_char k) = true /\ digit_value (digit_char k) = k.
Proof.
  intros H. destruct (Z_as_nat k) as [j ->]; [lia|].
  enumerate j below 10 by (split; reflexivity).
Qed.

Lemma match_Y_format (n : Z) (rest : string) :
  0 <= n <= 9999 -> match_Y (format_0d 4 n ++ rest) = Some (n, rest).
Proof.
  intros H. rewrite format_0d_4 by exact H.
  unfold four_digits, match_Y. cbn [append].
  destruct (digit_char_digit (n / 1000)) as [-> ->]; [ div_lia |].
  destruct (digit_char_digit (n / 100 mod 10)) as [-> ->]; [ div_lia |].
  destruct (digit_char_digit (n / 10 mod 10)) as [-> ->]; [ div_lia |].
  destruct (digit_char_digit (n mod 10)) as [-> ->]; [ div_lia |].
  cbn [andb]. do 2 f_equal. div_lia.
Qed.

(** ** [strptime] on the text of a datetime *)

Lemma append_assoc (a b c : string) : (a ++ b) ++ c = a ++ (b ++ c).
Proof. induction a as [|x a IH]; cbn; [reflexivity | now rewrite IH]. Qed.

Lemma append_nil_r (a : string) : a ++ EmptyString = a.
Proof. induction a as [|x a IH]; cbn; [reflexivity | now rewrite IH]. Qed.

Lemma datetime_isoformat_split (sep : ascii) (d : datetime) (x : string) :
  datetime_isoformat sep d ++ x
  = isoformat_seconds sep d (isoformat_fraction d ++ x).
Proof.
  unfold datetime_isoformat, isoformat_seconds, isoformat_fraction.
  repeat (rewrite append_assoc; cbn [append]).
  reflexivity.
Qed.

Lemma days_in_month_le (y m : Z) : _days_in_month y m <= 31.
Proof.
  unfold _days_in_month.
  destruct ((m =? 2) && _is_leap y); [lia|].
  unfold _DAYS_IN_MONTH.
  destruct m as [|p|p]; try lia.
  do 4 (destruct p as [p|p|]; try lia).
Qed.

Lemma datetime_ok_bounds (d : datetime) :
  datetime_ok d = true ->
  1 <= year d <= 9999 /\ 1 <= month d <= 12
  /\ 1 <= day d <= _days_in_month (year d) (month d)
  /\ 0 <= hour d <= 23 /\ 0 <= minute d <= 59 /\ 0 <= second d <= 59
  /\ 0 <= microsecond d <= 999999.
Proof.
  unfold datetime_ok, MINYEAR, MAXYEAR.
  rewrite !andb_true_iff, !Z.leb_le. intuition.
Qed.

Lemma match_format_isoformat (d : datetime) (tail : string) :
  datetime_ok d = true ->
  match_format fmt_Ymd_HMS (isoformat_seconds " " d tail) found_defaults
  = Some (mk_found (year d) (month d) (day d) (hour d) (minute d) (second d), tail).
Proof.
  intros Hok. apply datetime_ok_bounds in Hok.
  destruct Hok as (Hy & Hm & Hd & HH & HM & HS & _).
  pose proof (days_in_month_le (year d) (month d)) as Hdim.
  unfold isoformat_seconds, fmt_Ymd_HMS.
  cbn [match_format match_directive].
  rewrite match_Y_format by lia. cbn [append is_char Ascii.eqb Bool.eqb].
  cbn [match_format match_directive].
  rewrite match_m_format by lia. cbn [append is_char Ascii.eqb Bool.eqb].
  rewrite match_d_format by lia.
  cbn [match_whitespace is_space].
  replace (is_space " ") with true by reflexivity.
  rewrite skip_spaces_format by lia.
  rewrite match_H_format by lia. cbn [append is_char Ascii.eqb Bool.eqb].
  rewrite match_M_format by lia. cbn [append is_char Ascii.eqb Bool.eqb].
  rewrite match_S_format by lia.
  reflexivity.
Qed.

Lemma strptime_isoformat_seconds (d : datetime) (tail : string) :
  datetime_ok d = true ->
  strptime (isoformat_seconds " " d tail) fmt_Ymd_HMS
  = match tail with
    | EmptyString =>
        Ok (mk_datetime (year d) (month d) (day d) (hour d) (minute d) (second d) 0)
    | String _ _ => Raise ValueError
    end.
Proof.
  intros Hok. unfold strptime.
  rewrite match_format_isoformat by exact Hok.
  destruct tail as [|c tail]; [|reflexivity].
  cbn [found_Y found_m found_d found_H found_M found_S].
  unfold new_datetime.
  replace (datetime_ok _) with true; [reflexivity|].
  symmetry. revert Hok. unfold datetime_ok. cbn [year month day hour minute second microsecond].
  rewrite !andb_true_iff. intuition.
Qed.

Lemma str_time_whole (t : Timestamp) :
  whole_second t = true ->
  str_time (TS t) = isoformat_seconds " " (to_pydatetime t) EmptyString.
Proof.
  unfold whole_second. rewrite andb_true_iff. intros [Hus Hns].
  cbn [str_time]. unfold Timestamp_isoformat. rewrite Hns.
  rewrite <- (append_nil_r (datetime_isoformat " " (to_pydatetime t))).
  rewrite datetime_isoformat_split. unfold isoformat_fraction. rewrite Hus.
  reflexivity.
Qed.

Lemma str_time_fraction (t : Timestamp) :
  whole_second t = false ->
  exists c tail, str_time (TS t) = isoformat_seconds " " (to_pydatetime t) (String c tail).
Proof.
  unfold whole_second. intros Hw.
  cbn [str_time]. unfold Timestamp_isoformat.
  destruct (nanosecond t =? 0) eqn:Hns.
  - rewrite andb_true_r in Hw.
    rewrite <- (append_nil_r (datetime_isoformat " " (to_pydatetime t))).
    rewrite datetime_isoformat_split. unfold isoformat_fraction. rewrite Hw.
    cbn [append]. eauto.
  - destruct (microsecond (to_pydatetime t) =? 0) eqn:Hus; cbn [negb].
    + rewrite datetime_isoformat_split. unfold isoformat_fraction. rewrite Hus.
      cbn [append]. eauto.
    + rewrite datetime_isoformat_split. unfold isoformat_fraction. rewrite Hus.
      cbn [append]. eauto.
Qed.

Lemma strptime_str_whole (t : Timestamp) :
  Timestamp_ok t = true -> whole_second t = true ->
  strptime (str_time (TS t)) fmt_Ymd_HMS = Ok (to_pydatetime t).
Proof.
  intros Hok Hw. rewrite str_time_whole by exact Hw.
  unfold Timestamp_ok in Hok. rewrite !andb_true_iff in Hok.
  destruct Hok as [[Hok _] _].
  rewrite strptime_isoformat_seconds by exact Hok.
  unfold whole_second in Hw. rewrite andb_true_iff, Z.eqb_eq in Hw.
  destruct Hw as [Hus _]. destruct (to_pydatetime t); cbn in *. now subst.
Qed.

Lemma strptime_str_fraction (t : Timestamp) :
  Timestamp_ok t = true -> whole_second t = false ->
  strptime (str_time (TS t)) fmt_Ymd_HMS = Raise ValueError.
Proof.
  intros Hok Hw. destruct (str_time_fraction t Hw) as (c & tail & ->).
  unfold Timestamp_ok in Hok. rewrite !andb_true_iff in Hok.
  destruct Hok as [[Hok _] _].
  now rewrite strptime_isoformat_seconds by exact Hok.
Qed.

Lemma strptime_NaT : strptime (str_time NaT) fmt_Ymd_HMS = Raise ValueError.
Proof. reflexivity. Qed.

(** ** [Series.max] *)

Section SeriesMax.

Lemma later_cases (a b : time_cell) : later a b = a \/ later a b = b.
Proof.
  destruct a as [|x], b as [|y]; cbn; auto.
  destruct (Timestamp_value x <? Timestamp_value y); auto.
Qed.

Lemma later_dominates_l (a b : time_cell) (t : Timestamp) :
  dominates a t -> dominates (later a b) t.
Proof.
  intros (m & -> & Hm). destruct b as [|y]; cbn.
  - exists m; auto.
  - destruct (Timestamp_value m <? Timestamp_value y) eqn:Hlt.
    + apply Z.ltb_lt in Hlt. exists y; split; [reflexivity | lia].
    + exists m; auto.
Qed.

Lemma later_dominates_r (a : time_cell) (y t : Timestamp) :
  Timestamp_value t <= Timestamp_value y -> dominates (later a (TS y)) t.
Proof.
  intros Hy. destruct a as [|x]; cbn.
  - exists y; auto.
  - destruct (Timestamp_value x <? Timestamp_value y) eqn:Hlt.
    + exists y; auto.
    + apply Z.ltb_ge in Hlt. exists x; split; [reflexivity | lia].
Qed.

Lemma fold_later_spec (l : list time_cell) (acc : time_cell) :
  (fold_left later l acc = acc \/ In (fold_left later l acc) l)
  /\ (forall t, dominates acc t -> dominates (fold_left later l acc) t)
  /\ (forall t, In (TS t) l -> dominates (fold_left later l acc) t).
Proof.
  revert acc. induction l as [|c l IH]; intros acc; cbn [fold_left].
  - repeat split; auto. intros t [].
  - destruct (IH (later acc c)) as (Hmem & Hacc & Hin).
    repeat split.
    + destruct Hmem as [Heq | Hmem]; [|right; right; exact Hmem].
      rewrite Heq. destruct (later_cases acc c) as [-> | ->]; [left|right; left]; reflexivity.
    + intros t Ht. apply Hacc, later_dominates_l, Ht.
    + intros t [-> | Ht]; [|apply Hin, Ht].
      apply Hacc, later_dominates_r. lia.
Qed.

Lemma Series_max_is_max (l : list time_cell) (t : Timestamp) :
  Series_max l = TS t ->
  In (TS t) l /\ forall t', In (TS t') l -> Timestamp_value t' <= Timestamp_value t.
Proof.
  unfold Series_max. intros Hmax.
  destruct (fold_later_spec l NaT) as (Hmem & _ & Hin).
  rewrite Hmax in Hmem, Hin. split.
  - destruct Hmem as [Heq | Hmem]; [discriminate | exact Hmem].
  - intros t' Ht'. destruct (Hin t' Ht') as (m & Hm & Hle).
    injection Hm as <-. exact Hle.
Qed.

Lemma Series_max_NaT (l : list time_cell) :
  Series_max l = NaT <-> forall c, In c l -> c = NaT.
Proof.
  unfold Series_max. destruct (fold_later_spec l NaT) as (Hmem & _ & Hin). split.
  - intros Hmax c Hc. destruct c as [|t]; [reflexivity|].
    destruct (Hin t Hc) as (m & Hm & _). congruence.
  - intros Hall. destruct Hmem as [Heq | Hmem]; [exact Heq | exact (Hall _ Hmem)].
Qed.


End SeriesMax.

(** ** The watermark resolver *)

Lemma get_last_unfold (rows : list row) (E : string) :
  get_last_datetime_by_city (DataFrame (Table rows)) E
  = match rows_for E rows with
    | _ :: _ => strptime (str_time (Series_max (map time (rows_for E rows)))) fmt_Ymd_HMS
    | [] => Ok (mk_datetime 2021 1 1 0 0 0 0)
    end.
Proof. reflexivity. Qed.


(** C9. When the entity has rows but the maximum of their time column is
    not a date-time (it is [NaT]), the resolver raises the [ValueError] of
    [strptime]: the parse error is propagated, and no default is
    returned. *)
Theorem parse_error_propagates (rows : list row) (E : string) :
  rows_for E rows <> [] ->
  Series_max (map time (rows_for E rows)) = NaT ->
  get_last_datetime_by_city (DataFrame (Table rows)) E = Raise ValueError.
Proof.
  intros Hne Hmax. rewrite get_last_unfold.
  destruct (rows_for E rows) as [|r mine]; [congruence|].
  rewrite Hmax. exact strptime_NaT.
Qed.

(** C10. When the maximum timestamp of the entity is a valid date-time
    with a non-zero part below the second, its text does not match
    [%Y-%m-%d %H:%M:%S] and the resolver raises, although nothing in the
    store is corrupt. *)
Theorem fractional_watermark_raises (rows : list row) (E : string) (t : Timestamp) :
  Series_max (map time (rows_for E rows)) = TS t ->
  Timestamp_ok t = true ->
  whole_second t = false ->
  get_last_datetime_by_city (DataFrame (Table rows)) E = Raise ValueError.
Proof.
  intros Hmax Hok Hw. rewrite get_last_unfold.
  destruct (rows_for E rows) as [|r mine]; [discriminate|].
  rewrite Hmax. apply strptime_str_fraction; assumption.
Qed.

(** ** The merger *)

(** C5. Merging a delta that has rows into a store gives a store of
    [len(store) + len(delta)] rows: the rows of the store, unchanged and in
    their order, followed by the rows of the delta in theirs. *)
Theorem merge_appends (store delta : frame) :
  frame_rows delta <> [] ->
  exists merged,
    concat_weather_data_by_city (DataFrame delta) (DataFrame store)
    = Ok (DataFrame merged)
    /\ List.length (frame_rows merged)
       = (List.length (frame_rows store) + List.length (frame_rows delta))%nat
    /\ firstn (List.length (frame_rows store)) (frame_rows merged) = frame_rows store
    /\ skipn (List.length (frame_rows store)) (frame_rows merged) = frame_rows delta.
Proof.
  intros Hdelta. destruct delta as [|d]; [now contradiction Hdelta|].
  cbn [frame_rows] in *. destruct d as [|r d]; [now contradiction Hdelta|].
  assert (Hshape : forall merged,
            frame_rows merged = (frame_rows store ++ r :: d)%list ->
            List.length (frame_rows merged)
            = (List.length (frame_rows store) + List.length (r :: d))%nat
            /\ firstn (List.length (frame_rows store)) (frame_rows merged)
               = frame_rows store
            /\ skipn (List.length (frame_rows store)) (frame_rows merged) = r :: d).
  { intros merged ->. repeat split.
    - apply length_app.
    - rewrite firstn_app, Nat.sub_diag, firstn_all. cbn. apply app_nil_r.
    - rewrite skipn_app, Nat.sub_diag, skipn_all. reflexivity. }
  destruct store as [|[|s0 s]].
  - exists (Table (r :: d)). split; [reflexivity|]. apply Hshape. reflexivity.
  - exists (Table (r :: d)). split; [reflexivity|]. apply Hshape. reflexivity.
  - exists (Table ((s0 :: s) ++ r :: d)). split; [reflexivity|]. apply Hshape. reflexivity.
Qed.

(** C7. Merging a delta without rows returns the store as it was, whatever
    the store is. *)
Theorem merge_empty_delta (delta : frame) (store : pyobj) :
  frame_rows delta = [] ->
  concat_weather_data_by_city (DataFrame delta) store = Ok store.
Proof.
  intros Hdelta. unfold concat_weather_data_by_city. cbn [truth_of_empty bind_result].
  rewrite Hdelta. reflexivity.
Qed.

(** ** The delta fetcher *)

Lemma datetime_eqb_eq (a b : datetime) : datetime_eqb a b = true <-> a = b.
Proof.
  unfold datetime_eqb. rewrite !andb_true_iff, !Z.eqb_eq. split.
  - destruct a, b; cbn. intuition congruence.
  - intros ->. intuition.
Qed.

Lemma datetime_eqb_neq (a b : datetime) : a <> b -> datetime_eqb a b = false.
Proof.
  intros Hne. destruct (datetime_eqb a b) eqn:Heq; [|reflexivity].
  apply datetime_eqb_eq in Heq. contradiction.
Qed.

Lemma datetime_add_hour_field (d s : datetime) :
  0 <= hour d <= 23 -> minute d = 0 -> second d = 0 -> microsecond d = 0 ->
  datetime_add d (timedelta_hours 1) = Ok s ->
  hour s = (hour d + 1) mod 24.
Proof.
  intros Hh Hm Hs Hus. unfold datetime_add.
  destruct (_ && _); [|discriminate].
  destruct (_ord2ymd _) as [[y m] dd]. intros [= <-]. cbn [hour].
  unfold timedelta_add, timedelta_hours, new_timedelta.
  cbn [td_days td_seconds td_microseconds]. rewrite Hm, Hs, Hus.
  div_lia.
Qed.

Lemma next_hour_differs (now start : datetime) :
  datetime_ok now = true ->
  datetime_add (truncate_to_hour now) (timedelta_hours 1) = Ok start ->
  start <> truncate_to_hour now.
Proof.
  intros Hok Hadd Heq.
  apply datetime_ok_bounds in Hok. destruct Hok as (_ & _ & _ & Hh & _).
  apply datetime_add_hour_field in Hadd; cbn; try reflexivity; try lia.
  rewrite Heq in Hadd. cbn in Hadd. div_lia.
Qed.

Section FetchFacts.

Variable meteostat : json -> json -> datetime -> datetime -> response.

Lemma fetch_open_window (watermark now start : datetime) (city_name : string)
    (latitude longitude : json) (w : world) :
  datetime_add watermark (timedelta_hours 1) = Ok start ->
  start <> truncate_to_hour now ->
  fetch_hourly_data_from_meteostat_by_city meteostat watermark now city_name
    latitude longitude w
  = (Ok (DataFrame (delta_of_response city_name
                      (meteostat latitude longitude start (truncate_to_hour now)))),
     after_fetch w latitude longitude start (truncate_to_hour now)).
Proof.
  intros Hadd Hne.
  unfold fetch_hourly_data_from_meteostat_by_city, bind, lift. rewrite Hadd.
  fold (truncate_to_hour now). rewrite (datetime_eqb_neq _ _ Hne). cbn [negb].
  unfold try_except, Hourly_fetch, bind, emit, after_fetch, delta_of_response.
  destruct (meteostat latitude longitude start (truncate_to_hour now)) as [e | [|h data]];
    reflexivity.
Qed.

Lemma fetch_closed_window (watermark now : datetime) (city_name : string)
    (latitude longitude : json) (w : world) :
  datetime_add watermark (timedelta_hours 1) = Ok (truncate_to_hour now) ->
  fetch_hourly_data_from_meteostat_by_city meteostat watermark now city_name
    latitude longitude w
  = (Ok PyNone, w).
Proof.
  intros Hadd.
  unfold fetch_hourly_data_from_meteostat_by_city, bind, lift. rewrite Hadd.
  fold (truncate_to_hour now).
  rewrite (proj2 (datetime_eqb_eq _ _) eq_refl). reflexivity.
Qed.

End FetchFacts.

(** C1, as the code has it. When "now" truncated to the hour is the
    watermark, the window start (watermark + 1 hour) is not the window end,
    the guard of line 99 lets the query through, and the provider is asked
    once for the inverted window; the fetch returns the rows of the answer
    under the pipeline's columns, and a frame without rows when the
    provider has none or fails. *)
Theorem refetch_at_watermark
    (meteostat : json -> json -> datetime -> datetime -> response)
    (watermark now start : datetime) (city_name : string)
    (latitude longitude : json) (w : world) :
  datetime_ok now = true ->
  truncate_to_hour now = watermark ->
  datetime_add watermark (timedelta_hours 1) = Ok start ->
  start <> watermark
  /\ fetch_hourly_data_from_meteostat_by_city meteostat watermark now city_name
       latitude longitude w
     = (Ok (DataFrame (delta_of_response city_name
                         (meteostat latitude longitude start watermark))),
        after_fetch w latitude longitude start watermark).
Proof.
  intros Hok <- Hadd.
  pose proof (next_hour_differs now start Hok Hadd) as Hne.
  split; [exact Hne|].
  now apply fetch_open_window.
Qed.

(** ** The pipeline driver *)

(** C8. For an entity whose window is not empty, a failure of the provider
    makes the fetch return a frame without rows, and the driver goes on to
    the remaining entities with the store it had: nothing is merged and
    nothing is written for the entity. *)
Theorem provider_failure_skips_entity
    (clock : nat -> datetime)
    (meteostat : json -> json -> datetime -> datetime -> response)
    (to_parquet_error : string -> frame -> option exn)
    (name : string) (infos : json) (items : list (string * json))
    (store : pyobj) (path : string) (w : world)
    (latitude longitude : json) (watermark start : datetime) (e : exn) :
  let now := clock (clock_reads w) in
  let w1 := mk_world (S (clock_reads w)) (events w) in
  getitem infos "latitude" = Ok latitude ->
  getitem infos "longitude" = Ok longitude ->
  get_last_datetime_by_city store name = Ok watermark ->
  datetime_add watermark (timedelta_hours 1) = Ok start ->
  start <> truncate_to_hour now ->
  meteostat latitude longitude start (truncate_to_hour now) = Fails e ->
  fetch_hourly_data_from_meteostat_by_city meteostat watermark now name
    latitude longitude w1
  = (Ok (DataFrame Blank), after_fetch w1 latitude longitude start (truncate_to_hour now))
  /\ main_loop clock meteostat to_parquet_error ((name, infos) :: items) store path w
     = main_loop clock meteostat to_parquet_error items store path
         (after_fetch w1 latitude longitude start (truncate_to_hour now)).
Proof.
  intros now w1 Hlat Hlon Hlast Hadd Hne Hfail.
  assert (Hfetch :
    fetch_hourly_data_from_meteostat_by_city meteostat watermark now name
      latitude longitude w1
    = (Ok (DataFrame Blank),
       after_fetch w1 latitude longitude start (truncate_to_hour now))).
  { rewrite (fetch_open_window meteostat watermark now start) by assumption.
    rewrite Hfail. reflexivity. }
  split; [exact Hfetch|].
  cbn [main_loop]. unfold bind at 1, lift at 1. rewrite Hlat.
  unfold bind at 1, lift at 1. rewrite Hlon.
  unfold bind at 1, datetime_now at 1. fold now. fold w1.
  unfold bind at 1, lift at 1. rewrite Hlast.
  unfold bind at 1. rewrite Hfetch.
  unfold bind at 1, lift at 1. reflexivity.
Qed.

Lemma main_loop_step_raises
    (clock : nat -> datetime)
    (meteostat : json -> json -> datetime -> datetime -> response)
    (to_parquet_error : string -> frame -> option exn)
    (name : string) (infos : json) (items : list (string * json))
    (store : pyobj) (path : string) (w : world)
    (latitude longitude : json) (e : exn) :
  getitem infos "latitude" = Ok latitude ->
  getitem infos "longitude" = Ok longitude ->
  get_last_datetime_by_city store name = Raise e ->
  main_loop clock meteostat to_parquet_error ((name, infos) :: items) store path w
  = (Raise e, mk_world (S (clock_reads w)) (events w)).
Proof.
  intros Hlat Hlon Hlast. cbn [main_loop].
  unfold bind at 1, lift at 1. rewrite Hlat.
  unfold bind at 1, lift at 1. rewrite Hlon.
  unfold bind at 1, datetime_now at 1.
  unfold bind at 1, lift at 1. rewrite Hlast. reflexivity.
Qed.

(** A geocode file that holds a JSON array stops the driver at
    [cities_infos.items()], before any entity is looked at. *)
Lemma main_rejects_array
    (files : string -> file) (clock : nat -> datetime)
    (meteostat : json -> json -> datetime -> datetime -> response)
    (to_parquet_error : string -> frame -> option exn)
    (l : list json) (w : world) :
  files "cities_geocode.json" = JsonFile (JArray l) ->
  main files clock meteostat to_parquet_error w = (Raise AttributeError, w).
Proof.
  intros Hfile. unfold main, bind, lift, load_cities_info_from_json, json_load.
  rewrite Hfile. reflexivity.
Qed.

(** A store file that cannot be read leaves the class in the variable,
    and the first entity's watermark cannot be resolved on it. *)
Lemma load_failure_class (files : string -> file) (path : string) :
  (files path = Missing \/ files path = Unreadable) ->
  load_parquet_weather_data files path = DataFrame_class.
Proof.
  intros [H | H]; unfold load_parquet_weather_data, read_parquet; now rewrite H.
Qed.

(** ** The claims at concrete inputs *)

Import Sample.

(** The run of the specification's first scenario: one stored row at
    10:00, the clock at 12:30, two new hours from the provider.  The
    window asked for is 11:00 to 12:00, and the three rows are written. *)
Example scenario_top_up :
  let stored := [obs uberaba (TS (ts 2024 1 1 10 0 0 0 0))] in
  main (disk cities_as_dict (Some stored)) (fun _ => half_past 12) two_hours disk_ok w0
  = (Ok (DataFrame (Table (stored ++ delta)%list)),
     mk_world 1 [Fetch latitude longitude (on_the_hour 11) (on_the_hour 12);
                 Save "weather_data.parquet" (Table (stored ++ delta)%list)]).
Proof. vm_compute. reflexivity. Qed.

(** C1, as the specification words it, fails in its own boundary
    scenario: no row for the entity, so the watermark is the default
    start, and "now" is that very instant.  The provider has nothing for
    the inverted window and the fetch does come back empty, but the
    provider has been called. *)
Lemma no_refetch_counterexample :
  truncate_to_hour epoch = epoch
  /\ get_last_datetime_by_city (DataFrame (Table store)) prata = Ok epoch
  /\ fetch_hourly_data_from_meteostat_by_city silent epoch epoch prata
       latitude longitude w0
     = (Ok (DataFrame Blank),
        mk_world 0 [Fetch latitude longitude (mk_datetime 2021 1 1 1 0 0 0) epoch])
  /\ ~ empty_without_provider_call
         (fetch_hourly_data_from_meteostat_by_city silent epoch epoch prata
            latitude longitude w0) w0.
Proof.
  repeat split; try (vm_compute; reflexivity).
  intros [_ Hcalls]. vm_compute in Hcalls. discriminate Hcalls.
Qed.

Lemma refetch_at_watermark_witness :
  mk_datetime 2021 1 1 1 0 0 0 <> epoch
  /\ fetch_hourly_data_from_meteostat_by_city two_hours epoch epoch prata
       latitude longitude w0
     = (Ok (DataFrame (delta_of_response prata
                         (two_hours latitude longitude
                            (mk_datetime 2021 1 1 1 0 0 0) epoch))),
        after_fetch w0 latitude longitude (mk_datetime 2021 1 1 1 0 0 0) epoch).
Proof.
  apply (refetch_at_watermark two_hours epoch epoch (mk_datetime 2021 1 1 1 0 0 0)
           prata latitude longitude w0); reflexivity.
Defined.

(** C2. With the watermark at 10:00 and the clock at 11:30 the window
    start equals the window end; nothing is asked of the provider, but what
    comes back is [None], not a frame: the [return] of line 121 belongs to
    the [if] of line 99.  The driver's [meteostat_data_by_city.empty] of
    line 192 then raises [AttributeError] and the run ends there. *)
Theorem closed_window_returns_None :
  datetime_add (on_the_hour 10) (timedelta_hours 1) = Ok (truncate_to_hour (half_past 11))
  /\ (forall meteostat city_name lat lon w,
        fetch_hourly_data_from_meteostat_by_city meteostat (on_the_hour 10)
          (half_past 11) city_name lat lon w
        = (Ok PyNone, w))
  /\ truth_of_empty PyNone = Raise AttributeError
  /\ main (disk cities_as_dict (Some store)) (fun _ => half_past 11) two_hours
          disk_ok w0
     = (Raise AttributeError, mk_world 1 []).
Proof.
  split; [reflexivity|]. split.
  - intros meteostat city_name lat lon w. now apply fetch_closed_window.
  - split; [reflexivity|]. vm_compute. reflexivity.
Qed.

(** C3. Loading the store from a file that is missing, or is not a parquet
    file, does not raise, but the handler of line 27 binds the class
    [pd.DataFrame] where the comment announces an empty DataFrame.  The
    class is not an empty store: the resolver's
    [parquet_weather_data['city']] raises [TypeError] on it, and so does
    the run, while on a store with no rows the same entity gets the
    default start. *)
Theorem load_failure_binds_class :
  load_parquet_weather_data nothing_on_disk "weather_data.parquet" = DataFrame_class
  /\ load_parquet_weather_data (fun _ => Unreadable) "weather_data.parquet"
     = DataFrame_class
  /\ get_last_datetime_by_city DataFrame_class uberaba = Raise TypeError
  /\ get_last_datetime_by_city (DataFrame (Table [])) uberaba = Ok epoch
  /\ main (disk cities_as_dict None) (fun _ => half_past 12) two_hours disk_ok w0
     = (Raise TypeError, mk_world 1 []).
Proof. repeat split; vm_compute; reflexivity. Qed.

(** C4. The file the bootstrap writes for one city is a JSON array with
    one single-key mapping.  The driver loads it, and then raises
    [AttributeError] at [cities_infos.items()], which a list does not have:
    no entity is processed.  The same city under a JSON object is
    processed. *)
Theorem bootstrap_file_rejected :
  exists files,
    InitialData.get_geolocation geocoder "Brasil" "Uberaba" nothing_on_disk = Ok files
    /\ files "cities_geocode.json" = JsonFile (JArray [cities_as_dict])
    /\ load_cities_info_from_json files "cities_geocode.json"
       = Ok (JArray [cities_as_dict])
    /\ main files (fun _ => half_past 12) two_hours disk_ok w0
       = (Raise AttributeError, w0)
    /\ exists final w,
         main (disk cities_as_dict (Some store)) (fun _ => half_past 12) two_hours
              disk_ok w0
         = (Ok final, w).
Proof.
  eexists. split; [reflexivity|].
  repeat split; try (vm_compute; reflexivity).
  do 2 eexists. vm_compute. reflexivity.
Qed.

Lemma merge_appends_witness :
  exists merged,
    concat_weather_data_by_city (DataFrame (Table delta)) (DataFrame (Table store))
    = Ok (DataFrame merged)
    /\ List.length (frame_rows merged) = 6%nat
    /\ firstn 4 (frame_rows merged) = store
    /\ skipn 4 (frame_rows merged) = delta.
Proof.
  apply (merge_appends (Table store) (Table delta)). discriminate.
Defined.



Lemma merge_empty_delta_witness :
  concat_weather_data_by_city (DataFrame Blank) (DataFrame (Table store))
  = Ok (DataFrame (Table store)).
Proof.
  apply (merge_empty_delta Blank (DataFrame (Table store))). reflexivity.
Defined.

Lemma provider_failure_skips_entity_witness :
  fetch_hourly_data_from_meteostat_by_city down (on_the_hour 10) (half_past 12)
    uberaba latitude longitude (mk_world 1 [])
  = (Ok (DataFrame Blank),
     mk_world 1 [Fetch latitude longitude (on_the_hour 11) (on_the_hour 12)])
  /\ main_loop (fun _ => half_past 12) down disk_ok
       [(uberaba, infos); (frutal, infos)] (DataFrame (Table store))
       "weather_data.parquet" w0
     = main_loop (fun _ => half_past 12) down disk_ok
         [(frutal, infos)] (DataFrame (Table store)) "weather_data.parquet"
         (mk_world 1 [Fetch latitude longitude (on_the_hour 11) (on_the_hour 12)]).
Proof.
  apply (provider_failure_skips_entity (fun _ => half_past 12) down disk_ok
           uberaba infos [(frutal, infos)] (DataFrame (Table store))
           "weather_data.parquet" w0 latitude longitude
           (on_the_hour 10) (on_the_hour 11) (ProviderFailure 503));
    try reflexivity.
  discriminate.
Defined.

Lemma parse_error_propagates_witness :
  get_last_datetime_by_city (DataFrame (Table store)) araguari = Raise ValueError.
Proof.
  apply (parse_error_propagates store araguari); [discriminate | reflexivity].
Defined.

Lemma fractional_watermark_raises_witness :
  get_last_datetime_by_city (DataFrame (Table store)) frutal = Raise ValueError.
Proof.
  apply (fractional_watermark_raises store frutal (ts 2024 1 1 10 0 0 500000 0));
    reflexivity.
Defined.

(** * Further properties of the code *)

(** ** The merger, beyond one merge *)

Lemma concat_frames (store delta : frame) :
  exists merged,
    concat_weather_data_by_city (DataFrame delta) (DataFrame store)
    = Ok (DataFrame merged)
    /\ frame_rows merged = (frame_rows store ++ frame_rows delta)%list.
Proof.
  destruct delta as [|[|r d]].
  - exists store. split; [reflexivity|]. cbn. now rewrite app_nil_r.
  - exists store. split; [reflexivity|]. cbn. now rewrite app_nil_r.
  - destruct store as [|[|s0 s]].
    + exists (Table (r :: d)). split; reflexivity.
    + exists (Table (r :: d)). split; reflexivity.
    + exists (Table ((s0 :: s) ++ r :: d)). split; reflexivity.
Qed.

Lemma rows_for_app (E : string) (a b : list row) :
  rows_for E (a ++ b) = (rows_for E a ++ rows_for E b)%list.
Proof. apply filter_app. Qed.

(** X1. Two merges in a row are one merge of the two deltas laid end to
    end: the store ends with its own rows, then those of the first delta,
    then those of the second, whether or not a delta is empty.  Nothing is
    dropped when the same rows come twice. *)
Theorem merge_twice (store first second : frame) :
  exists once twice,
    concat_weather_data_by_city (DataFrame first) (DataFrame store)
    = Ok (DataFrame once)
    /\ concat_weather_data_by_city (DataFrame second) (DataFrame once)
       = Ok (DataFrame twice)
    /\ frame_rows twice
       = (frame_rows store ++ frame_rows first ++ frame_rows second)%list.
Proof.
  destruct (concat_frames store first) as (once & Honce & Hrows1).
  destruct (concat_frames once second) as (twice & Htwice & Hrows2).
  exists once, twice. repeat split; [exact Honce | exact Htwice |].
  rewrite Hrows2, Hrows1. now rewrite app_assoc.
Qed.

(** X2. A merge keeps, for every entity, exactly the entity's rows of the
    store followed by the entity's rows of the delta: no row of any entity
    is lost, moved past another of the same entity, or merged with a
    duplicate. *)
Theorem merge_keeps_entity_rows (store delta : frame) (E : string) :
  exists merged,
    concat_weather_data_by_city (DataFrame delta) (DataFrame store)
    = Ok (DataFrame merged)
    /\ rows_for E (frame_rows merged)
       = (rows_for E (frame_rows store) ++ rows_for E (frame_rows delta))%list.
Proof.
  destruct (concat_frames store delta) as (merged & Hmerged & Hrows).
  exists merged. split; [exact Hmerged|].
  rewrite Hrows. apply rows_for_app.
Qed.

(** ** The watermark resolver, beyond one store *)

Lemma strptime_result (s : string) (d : datetime) :
  strptime s fmt_Ymd_HMS = Ok d -> datetime_ok d = true /\ microsecond d = 0.
Proof.
  unfold strptime.
  destruct (match_format fmt_Ymd_HMS s found_defaults) as [[f [|c rest]]|];
    try discriminate.
  unfold new_datetime.
  destruct (datetime_ok _) eqn:Hok; [|discriminate].
  intros [= <-]. split; [exact Hok | reflexivity].
Qed.

(** X3. Whatever object the store variable holds, a watermark that the
    resolver returns is a datetime the [datetime] constructor accepts, and
    it lies on a whole second. *)
Theorem watermark_is_whole_second (store : pyobj) (E : string) (d : datetime) :
  get_last_datetime_by_city store E = Ok d ->
  datetime_ok d = true /\ microsecond d = 0.
Proof.
  unfold get_last_datetime_by_city, rows_of_city.
  destruct store as [| |[|rows]]; try discriminate.
  cbn [getitem_city bind_result].
  destruct (filter _ rows) as [|r mine].
  - intros [= <-]. split; reflexivity.
  - apply strptime_result.
Qed.

Lemma resolved_from_max (rows : list row) (E : string) (d : datetime) :
  rows_for E rows <> [] ->
  times_ok rows ->
  get_last_datetime_by_city (DataFrame (Table rows)) E = Ok d ->
  exists t,
    Series_max (map time (rows_for E rows)) = TS t
    /\ d = to_pydatetime t
    /\ datetime_value d = Timestamp_value t.
Proof.
  intros Hne Hok. rewrite get_last_unfold.
  destruct (rows_for E rows) as [|r mine] eqn:Hmine; [congruence|].
  destruct (Series_max (map time (r :: mine))) as [|t] eqn:Hmax.
  - rewrite strptime_NaT. discriminate.
  - destruct (Series_max_is_max _ _ Hmax) as (Hin & _).
    apply in_map_iff in Hin. destruct Hin as (r' & Hr' & Hin').
    assert (Hrows : In r' rows).
    { rewrite <- Hmine in Hin'. unfold rows_for in Hin'.
      apply filter_In in Hin'. tauto. }
    pose proof (Hok r' t Hrows Hr') as Ht.
    destruct (whole_second t) eqn:Hw.
    + rewrite (strptime_str_whole t Ht Hw). intros [= <-].
      exists t. repeat split.
      unfold datetime_value, Timestamp_value. cbn [to_pydatetime nanosecond].
      unfold whole_second in Hw. rewrite andb_true_iff, !Z.eqb_eq in Hw. lia.
    + rewrite (strptime_str_fraction t Ht Hw). discriminate.
Qed.

(** X4. A merge never moves a watermark backwards.  For an entity that has
    rows in the store, if the resolver returns a watermark before the merge
    and one after it, the second is not earlier than the first (all
    timestamps of the store and of the delta being well formed). *)
Theorem merge_never_lowers_watermark
    (rows : list row) (delta merged : frame) (E : string) (before after : datetime) :
  times_ok rows ->
  times_ok (frame_rows delta) ->
  rows_for E rows <> [] ->
  get_last_datetime_by_city (DataFrame (Table rows)) E = Ok before ->
  concat_weather_data_by_city (DataFrame delta) (DataFrame (Table rows))
  = Ok (DataFrame merged) ->
  get_last_datetime_by_city (DataFrame merged) E = Ok after ->
  datetime_value before <= datetime_value after.
Proof.
  intros Hrows Hdelta Hne Hbefore Hmerge Hafter.
  destruct (concat_frames (Table rows) delta) as (merged' & Hmerged' & Hall).
  rewrite Hmerge in Hmerged'. injection Hmerged' as <-.
  cbn [frame_rows] in Hall.
  destruct (resolved_from_max rows E before Hne Hrows Hbefore)
    as (t1 & Hmax1 & _ & Hv1).
  assert (Hshape : merged = Table (rows ++ frame_rows delta)).
  { destruct merged as [|m]; cbn [frame_rows] in Hall.
    - destruct rows; [now contradiction Hne | discriminate Hall].
    - now rewrite Hall. }
  subst merged.
  assert (Hne' : rows_for E (rows ++ frame_rows delta) <> []).
  { rewrite rows_for_app. destruct (rows_for E rows); [congruence | discriminate]. }
  assert (Hok' : times_ok (rows ++ frame_rows delta)).
  { intros r t Hin. apply in_app_or in Hin. destruct Hin; eauto. }
  destruct (resolved_from_max _ E after Hne' Hok' Hafter) as (t2 & Hmax2 & _ & Hv2).
  rewrite Hv1, Hv2.
  destruct (Series_max_is_max _ _ Hmax1) as (Hin1 & _).
  destruct (Series_max_is_max _ _ Hmax2) as (_ & Hle).
  apply Hle. rewrite rows_for_app, map_app. apply in_or_app. now left.
Qed.

(** X5. On a store that has the pipeline's columns, rows of other
    entities do not touch a watermark: after merging a delta that has no
    row for the entity, the resolver answers for it what it answered
    before, a watermark or the error of an unparsable timestamp. *)
Theorem merge_of_others_keeps_watermark (rows : list row) (delta : frame) (E : string) :
  rows_for E (frame_rows delta) = [] ->
  exists merged,
    concat_weather_data_by_city (DataFrame delta) (DataFrame (Table rows))
    = Ok (DataFrame merged)
    /\ get_last_datetime_by_city (DataFrame merged) E
       = get_last_datetime_by_city (DataFrame (Table rows)) E.
Proof.
  intros Hnone.
  destruct (concat_frames (Table rows) delta) as (merged & Hmerged & Hall).
  exists merged. split; [exact Hmerged|].
  cbn [frame_rows] in Hall.
  assert (Hsame : rows_for E (frame_rows merged) = rows_for E rows).
  { rewrite Hall, rows_for_app, Hnone. apply app_nil_r. }
  destruct merged as [|m]; cbn [frame_rows] in *.
  - destruct rows as [|r rows]; [|discriminate Hall].
    destruct delta as [|[|d0 d]]; cbn in Hmerged; discriminate Hmerged.
  - rewrite !get_last_unfold, Hsame. reflexivity.
Qed.

(** ** The delta fetcher, beyond the two windows of the claims *)

(** X6. The guard of line 99 decides alone whether the provider is asked.
    With the window start at watermark + 1 hour and the window end at "now"
    truncated to the hour: when the two are equal nothing is asked and
    [None] comes back; when they differ the provider is asked exactly once,
    for exactly that window, and a frame comes back.  The clock is never
    read. *)
Theorem provider_asked_iff_window_open
    (meteostat : json -> json -> datetime -> datetime -> response)
    (watermark now start : datetime) (city_name : string)
    (lat lon : json) (w : world) :
  datetime_add watermark (timedelta_hours 1) = Ok start ->
  (start = truncate_to_hour now ->
   fetch_hourly_data_from_meteostat_by_city meteostat watermark now city_name lat lon w
   = (Ok PyNone, w))
  /\ (start <> truncate_to_hour now ->
      exists f,
        fetch_hourly_data_from_meteostat_by_city meteostat watermark now city_name
          lat lon w
        = (Ok (DataFrame f),
           mk_world (clock_reads w)
                    (events w ++ [Fetch lat lon start (truncate_to_hour now)])%list)).
Proof.
  intros Hadd. split.
  - intros Heq. apply fetch_closed_window. now rewrite <- Heq.
  - intros Hne. eexists. now apply fetch_open_window.
Qed.

(** X7. A frame that the fetch returns follows the provider's answer to
    the window, record by record and in its order: each row carries the
    city name the fetch was called with and the time, [temp], [rhum],
    [prcp] and [wspd] of its record, the other columns of the provider
    are gone, and there is no row when the provider failed. *)
Theorem fetched_frame_follows_answer
    (meteostat : json -> json -> datetime -> datetime -> response)
    (watermark now start : datetime) (city_name : string) (lat lon : json)
    (w : world) (f : frame) :
  datetime_add watermark (timedelta_hours 1) = Ok start ->
  fst (fetch_hourly_data_from_meteostat_by_city meteostat watermark now city_name
         lat lon w)
  = Ok (DataFrame f) ->
  frame_rows f
  = map (fun h => mk_row city_name (TS (h_time h)) (h_temp h) (h_rhum h) (h_prcp h)
                         (h_wspd h))
        (match meteostat lat lon start (truncate_to_hour now) with
         | Returns data => data
         | Fails _ => []
         end)
  /\ forall r, In r (frame_rows f) -> city r = city_name.
Proof.
  intros Hadd Hrun.
  assert (Hrows :
    frame_rows f
    = map (fun h => mk_row city_name (TS (h_time h)) (h_temp h) (h_rhum h) (h_prcp h)
                           (h_wspd h))
          (match meteostat lat lon start (truncate_to_hour now) with
           | Returns data => data
           | Fails _ => []
           end)).
  { destruct (datetime_eqb start (truncate_to_hour now)) eqn:Heq.
    - apply datetime_eqb_eq in Heq. subst start.
      rewrite (fetch_closed_window meteostat watermark now city_name lat lon w Hadd)
        in Hrun.
      discriminate Hrun.
    - assert (Hne : start <> truncate_to_hour now).
      { intros ->. rewrite (proj2 (datetime_eqb_eq _ _) eq_refl) in Heq. discriminate. }
      rewrite (fetch_open_window meteostat watermark now start city_name lat lon w
                 Hadd Hne) in Hrun.
      cbn [fst] in Hrun. injection Hrun as <-.
      destruct (meteostat lat lon start (truncate_to_hour now)) as [e | [|h data]];
        reflexivity. }
  split; [exact Hrows|].
  intros r Hin. rewrite Hrows in Hin. apply in_map_iff in Hin.
  destruct Hin as (h & <- & _). reflexivity.
Qed.

Lemma days_before_month_bound (y m d : Z) :
  1 <= m <= 12 -> 1 <= d <= _days_in_month y m ->
  1 <= _days_before_month y m + d <= 366.
Proof.
  unfold _days_before_month, _days_in_month.
  intros Hm Hd.
  assert (Hcases : m = 1 \/ m = 2 \/ m = 3 \/ m = 4 \/ m = 5 \/ m = 6 \/ m = 7
                   \/ m = 8 \/ m = 9 \/ m = 10 \/ m = 11 \/ m = 12) by lia.
  destruct (_is_leap y);
    repeat (destruct Hcases as [-> | Hcases]); try subst m;
    cbn [Z.eqb Z.ltb Z.compare Pos.eqb Pos.compare Pos.compare_cont andb
         _DAYS_BEFORE_MONTH _DAYS_IN_MONTH] in *; lia.
Qed.

Lemma toordinal_bounds (d : datetime) :
  datetime_ok d = true ->
  year d < 9999 ->
  1 <= toordinal d /\ toordinal d + 1 <= _MAXORDINAL.
Proof.
  intros Hok Hy. apply datetime_ok_bounds in Hok.
  destruct Hok as (Hyear & Hm & Hd & _).
  pose proof (days_before_month_bound (year d) (month d) (day d) Hm Hd) as Hdm.
  unfold toordinal, _ymd2ord, _days_before_year, _MAXORDINAL in *.
  div_lia.
Qed.

Lemma next_hour_exists (d : datetime) :
  datetime_ok d = true ->
  year d < 9999 ->
  exists s, datetime_add d (timedelta_hours 1) = Ok s.
Proof.
  intros Hok Hy.
  destruct (toordinal_bounds d Hok Hy) as (Hlo & Hhi).
  apply datetime_ok_bounds in Hok.
  destruct Hok as (_ & _ & _ & Hh & Hmi & Hs & Hus).
  unfold datetime_add.
  match goal with
  | |- context [if ?c then _ else _] => assert (Hc : c = true)
  end.
  { unfold timedelta_add, timedelta_hours, new_timedelta.
    cbn [td_days td_seconds td_microseconds].
    apply andb_true_iff. rewrite Z.ltb_lt, Z.leb_le. div_lia. }
  rewrite Hc. destruct (_ord2ymd _) as [[y m] dd]. eexists. reflexivity.
Qed.

(** X8. No failure of the provider leaves the fetch.  For every watermark
    before the year 9999 the fetch returns normally, with [None] or a
    frame, whatever the provider does; the one exception it can raise is
    the [OverflowError] of watermark + 1 hour, and then the provider has
    not been asked. *)
Theorem fetch_contains_provider_errors
    (meteostat : json -> json -> datetime -> datetime -> response)
    (watermark now : datetime) (city_name : string) (lat lon : json) (w : world) :
  datetime_ok watermark = true ->
  (year watermark < 9999 ->
   exists x,
     fst (fetch_hourly_data_from_meteostat_by_city meteostat watermark now city_name
            lat lon w) = Ok x
     /\ (x = PyNone \/ exists f, x = DataFrame f))
  /\ (forall e,
        fst (fetch_hourly_data_from_meteostat_by_city meteostat watermark now
               city_name lat lon w) = Raise e ->
        e = OverflowError
        /\ snd (fetch_hourly_data_from_meteostat_by_city meteostat watermark now
                  city_name lat lon w) = w).
Proof.
  intros Hok. split.
  - intros Hy. destruct (next_hour_exists watermark Hok Hy) as (start & Hadd).
    destruct (datetime_eqb start (truncate_to_hour now)) eqn:Heq.
    + apply datetime_eqb_eq in Heq. subst start.
      rewrite (fetch_closed_window meteostat watermark now city_name lat lon w Hadd).
      exists PyNone. split; [reflexivity | now left].
    + assert (Hne : start <> truncate_to_hour now).
      { intros ->. rewrite (proj2 (datetime_eqb_eq _ _) eq_refl) in Heq. discriminate. }
      rewrite (fetch_open_window meteostat watermark now start city_name lat lon w
                 Hadd Hne).
      eexists. split; [reflexivity | right; eexists; reflexivity].
  - intros e.
    unfold fetch_hourly_data_from_meteostat_by_city, bind, lift.
    destruct (datetime_add watermark (timedelta_hours 1)) as [start|e'] eqn:Hadd.
    + destruct (negb _).
      * unfold try_except, Hourly_fetch, bind, emit, raise, ret.
        destruct (meteostat lat lon start _) as [e'' | [|h data]]; discriminate.
      * discriminate.
    + cbn [fst snd]. intros [= <-]. split; [|reflexivity].
      unfold datetime_add in Hadd.
      destruct (_ && _); [|congruence].
      destruct (_ord2ymd _) as [[y m] dd]. discriminate.
Qed.

(** ** The loop of the driver, turn by turn *)

Lemma fetch_cases
    (meteostat : json -> json -> datetime -> datetime -> response)
    (watermark now : datetime) (city_name : string) (lat lon : json) (w : world) :
  (exists e,
     fetch_hourly_data_from_meteostat_by_city meteostat watermark now city_name
       lat lon w = (Raise e, w))
  \/ fetch_hourly_data_from_meteostat_by_city meteostat watermark now city_name
       lat lon w = (Ok PyNone, w)
  \/ (exists s,
        fetch_hourly_data_from_meteostat_by_city meteostat watermark now city_name
          lat lon w
        = (Ok (DataFrame (delta_of_response city_name
                            (meteostat lat lon s (truncate_to_hour now)))),
           after_fetch w lat lon s (truncate_to_hour now))).
Proof.
  destruct (datetime_add watermark (timedelta_hours 1)) as [start|e] eqn:Hadd.
  - destruct (datetime_eqb start (truncate_to_hour now)) eqn:Heq.
    + apply datetime_eqb_eq in Heq. subst start.
      right; left. now apply fetch_closed_window.
    + right; right. exists start. apply fetch_open_window; [exact Hadd|].
      intros ->. rewrite (proj2 (datetime_eqb_eq _ _) eq_refl) in Heq. discriminate.
  - left. exists e.
    unfold fetch_hourly_data_from_meteostat_by_city, bind, lift.
    now rewrite Hadd.
Qed.

Lemma concat_cases (r : row) (d : list row) (f : frame) (store : pyobj) :
  frame_rows f = r :: d ->
  (exists e, concat_weather_data_by_city (DataFrame f) store = Raise e)
  \/ (exists merged,
        concat_weather_data_by_city (DataFrame f) store = Ok (DataFrame merged)
        /\ frame_rows merged = (rows_of store ++ r :: d)%list).
Proof.
  intros Hf. destruct f as [|rows]; [discriminate|].
  cbn [frame_rows] in Hf. subst rows.
  destruct store as [| |[|[|s0 s]]].
  - left. eexists. reflexivity.
  - right. exists (Table (r :: d)). split; reflexivity.
  - right. exists (Table (r :: d)). split; reflexivity.
  - right. exists (Table (r :: d)). split; reflexivity.
  - right. exists (Table ((s0 :: s) ++ r :: d)). split; reflexivity.
Qed.

Lemma bind_lift_ok {A B : Type} (a : A) (k : A -> M B) (w : world) :
  bind (lift (Ok a)) k w = k a w.
Proof. reflexivity. Qed.

Lemma bind_lift_raise {A B : Type} (e : exn) (k : A -> M B) (w : world) :
  bind (lift (Raise e : result A)) k w = (Raise e, w).
Proof. reflexivity. Qed.

Lemma bind_run {A B : Type} (m : M A) (k : A -> M B) (w w' : world) (r : result A) :
  m w = (r, w') ->
  bind m k w = match r with
               | Ok a => k a w'
               | Raise e => (Raise e, w')
               end.
Proof. intros H. unfold bind. now rewrite H. Qed.

Lemma bind_now {B : Type} (clock : nat -> datetime) (k : datetime -> M B) (w : world) :
  bind (datetime_now clock) k w
  = k (clock (clock_reads w)) (mk_world (S (clock_reads w)) (events w)).
Proof. reflexivity. Qed.

Lemma main_loop_cons
    (clock : nat -> datetime)
    (meteostat : json -> json -> datetime -> datetime -> response)
    (to_parquet_error : string -> frame -> option exn)
    (name : string) (infos : json) (items : list (string * json))
    (store : pyobj) (path : string) (w : world) :
  (exists e c new,
     main_loop clock meteostat to_parquet_error ((name, infos) :: items) store path w
     = (Raise e, mk_world c (events w ++ new)%list)
     /\ aborted new
     /\ (clock_reads w <= c <= S (clock_reads w))%nat)
  \/ (exists new store',
        turn meteostat name path store new store'
        /\ main_loop clock meteostat to_parquet_error ((name, infos) :: items)
             store path w
           = main_loop clock meteostat to_parquet_error items store' path
               (mk_world (S (clock_reads w)) (events w ++ new)%list)).
Proof.
  assert (Hquiet : forall c, mk_world c (events w) = mk_world c (events w ++ [])%list)
    by (intros c; now rewrite app_nil_r).
  assert (Hw : w = mk_world (clock_reads w) (events w ++ [])%list)
    by (destruct w; cbn; now rewrite app_nil_r).
  remember (main_loop clock meteostat to_parquet_error ((name, infos) :: items)
              store path w) as run eqn:Hrun.
  cbn [main_loop] in Hrun.
  destruct (getitem infos "latitude") as [lat|e].
  2:{ rewrite bind_lift_raise in Hrun. left. exists e, (clock_reads w), [].
      rewrite <- Hw. repeat split; [exact Hrun | constructor | lia | lia]. }
  rewrite bind_lift_ok in Hrun.
  destruct (getitem infos "longitude") as [lon|e].
  2:{ rewrite bind_lift_raise in Hrun. left. exists e, (clock_reads w), [].
      rewrite <- Hw. repeat split; [exact Hrun | constructor | lia | lia]. }
  rewrite bind_lift_ok, bind_now in Hrun.
  set (w1 := mk_world (S (clock_reads w)) (events w)) in *.
  destruct (get_last_datetime_by_city store name) as [watermark|e].
  2:{ rewrite bind_lift_raise in Hrun. left. exists e, (S (clock_reads w)), [].
      rewrite <- Hquiet. repeat split; [exact Hrun | constructor | lia | lia]. }
  rewrite bind_lift_ok in Hrun.
  destruct (fetch_cases meteostat watermark (clock (clock_reads w)) name lat lon w1)
    as [(e & Hfetch) | [Hfetch | (s & Hfetch)]];
    rewrite (bind_run _ _ _ _ _ Hfetch) in Hrun.
  - left. exists e, (S (clock_reads w)), []. rewrite <- Hquiet.
    repeat split; [exact Hrun | constructor | lia | lia].
  - cbn [truth_of_empty] in Hrun. rewrite bind_lift_raise in Hrun.
    left. exists AttributeError, (S (clock_reads w)), []. rewrite <- Hquiet.
    repeat split; [exact Hrun | constructor | lia | lia].
  - set (now := truncate_to_hour (clock (clock_reads w))) in *.
    set (f := delta_of_response name (meteostat lat lon s now)) in *.
    cbn [truth_of_empty] in Hrun. unfold after_fetch, w1 in Hrun.
    cbn [clock_reads events] in Hrun.
    destruct (frame_rows f) as [|r d] eqn:Hf; rewrite bind_lift_ok in Hrun.
    + right. exists [Fetch lat lon s now], store.
      split; [apply turn_skip; exact Hf | exact Hrun].
    + destruct (concat_cases r d f store Hf) as [(e & Hcat) | (merged & Hcat & Hrows)];
        rewrite Hcat in Hrun.
      * rewrite bind_lift_raise in Hrun.
        left. exists e, (S (clock_reads w)), [Fetch lat lon s now].
        repeat split; [exact Hrun | constructor | lia | lia].
      * rewrite bind_lift_ok in Hrun.
        unfold save_concatenated_data_to_parquet in Hrun.
        destruct (to_parquet_error path merged) as [e|].
        -- left. exists e, (S (clock_reads w)), [Fetch lat lon s now].
           repeat split; [exact Hrun | constructor | lia | lia].
        -- right. exists [Fetch lat lon s now; Save path merged], (DataFrame merged).
           split.
           ++ apply turn_save; fold f; rewrite Hf; [discriminate | exact Hrows].
           ++ rewrite Hrun. unfold bind at 1, emit. cbn [clock_reads events].
              rewrite <- app_assoc. reflexivity.
Qed.

Lemma last_saved_app (a b : list event) :
  last_saved (a ++ b)
  = match last_saved b with
    | Some f => Some f
    | None => last_saved a
    end.
Proof.
  induction a as [|ev a IH]; cbn [app last_saved].
  - now destruct (last_saved b).
  - rewrite IH. now destruct (last_saved b).
Qed.

Lemma filter_length_app {A : Type} (p : A -> bool) (a b : list A) :
  List.length (filter p (a ++ b))
  = (List.length (filter p a) + List.length (filter p b))%nat.
Proof. now rewrite filter_app, length_app. Qed.

Lemma turn_record
    (meteostat : json -> json -> datetime -> datetime -> response)
    (name path : string) (store store' : pyobj) (new : list event) :
  turn meteostat name path store new store' ->
  List.length (filter is_fetch new) = 1%nat
  /\ (List.length (filter is_save new) <= 1)%nat
  /\ Forall (writes_rows_to path) new.
Proof.
  intros [lat lon s e Hnone | lat lon s e f Hadded Hrows]; cbn.
  - repeat split; [lia | now constructor].
  - repeat split; [lia |].
    repeat constructor. rewrite Hrows.
    destruct (rows_of store);
      destruct (frame_rows (delta_of_response name (meteostat lat lon s e)));
      cbn; congruence.
Qed.

(** X9. Whatever happens in a run of the loop, normal end or exception, the
    record of the run only grows, and what it gains is bounded by the
    entities: at most one provider call per entity, at most one write per
    provider call, at most one reading of the clock per entity.  Every
    write goes to the store file and carries at least one row: the loop
    never writes an empty store. *)
Theorem run_record
    (clock : nat -> datetime)
    (meteostat : json -> json -> datetime -> datetime -> response)
    (to_parquet_error : string -> frame -> option exn)
    (items : list (string * json)) (store : pyobj) (path : string) (w : world) :
  exists new,
    events (snd (main_loop clock meteostat to_parquet_error items store path w))
    = (events w ++ new)%list
    /\ (List.length (filter is_save new) <= List.length (filter is_fetch new))%nat
    /\ (List.length (filter is_fetch new) <= List.length items)%nat
    /\ (clock_reads w
        <= clock_reads (snd (main_loop clock meteostat to_parquet_error items
                               store path w)))%nat
    /\ (clock_reads (snd (main_loop clock meteostat to_parquet_error items
                            store path w))
        <= clock_reads w + List.length items)%nat
    /\ Forall (writes_rows_to path) new.
Proof.
  revert store w. induction items as [|[name infos] items IH]; intros store w.
  - exists []. cbn. rewrite app_nil_r. repeat split; try lia. constructor.
  - destruct (main_loop_cons clock meteostat to_parquet_error name infos items
                store path w)
      as [(e & c & new & -> & Habort & Hc) | (new & store' & Hturn & ->)].
    + exists new. cbn [snd events clock_reads List.length].
      destruct Habort; cbn; repeat split; try lia; repeat constructor.
    + destruct (IH store' (mk_world (S (clock_reads w)) (events w ++ new)%list))
        as (new' & Hev & Hsf & Hf & Hlo & Hhi & Hall).
      destruct (turn_record meteostat name path store store' new Hturn)
        as (Hf1 & Hs1 & Hall1).
      cbn [events clock_reads] in Hev, Hlo, Hhi.
      exists (new ++ new')%list. rewrite Hev, <- app_assoc.
      rewrite !filter_length_app. cbn [List.length].
      repeat split; try lia.
      apply Forall_app. split; assumption.
Qed.

(** X10. A run of the loop that ends normally has asked the provider
    exactly once per entity and read the clock once per entity.  The store
    it ends with is the store it started with followed by the rows the
    provider answered to the calls on record, call by call in the order of
    the entities and each under the name of its entity: nothing else is
    added and nothing is added twice.  If anything was written, the last
    write holds exactly the final store, and without a write the store is
    the one the run started with. *)
Theorem finished_run_is_append_only
    (clock : nat -> datetime)
    (meteostat : json -> json -> datetime -> datetime -> response)
    (to_parquet_error : string -> frame -> option exn)
    (items : list (string * json)) (store final : pyobj) (path : string)
    (w w' : world) :
  main_loop clock meteostat to_parquet_error items store path w = (Ok final, w') ->
  exists new,
    events w' = (events w ++ new)%list
    /\ clock_reads w' = (clock_reads w + List.length items)%nat
    /\ List.length (filter is_fetch new) = List.length items
    /\ rows_of final
       = (rows_of store
          ++ fetched_rows meteostat (map fst items) (filter is_fetch new))%list
    /\ (last_saved new = None -> final = store)
    /\ (forall f, last_saved new = Some f -> final = DataFrame f).
Proof.
  revert store w. induction items as [|[name infos] items IH]; intros store w Hrun.
  - cbn in Hrun. injection Hrun as <- <-.
    exists []. cbn. rewrite !app_nil_r.
    repeat split; try lia. intros f [=].
  - destruct (main_loop_cons clock meteostat to_parquet_error name infos items
                store path w)
      as [(e & c & new & Heq & _) | (new & store' & Hturn & Heq)];
      rewrite Heq in Hrun; [discriminate|].
    destruct (IH store' _ Hrun) as (new' & Hev & Hclock & Hf & Hrows & Hnone & Hsome).
    cbn [events clock_reads] in Hev, Hclock.
    destruct Hturn as [lat lon s e Hquiet | lat lon s e f Hadded Hstore].
    + exists ([Fetch lat lon s e] ++ new')%list.
      rewrite Hev, <- app_assoc, filter_app, length_app, last_saved_app.
      cbn [filter is_fetch app List.length last_saved map fst fetched_rows].
      rewrite Hquiet. cbn [app].
      repeat split; try lia; try assumption.
      * destruct (last_saved new'); [discriminate | now apply Hnone].
      * intros g Hg. apply Hsome. destruct (last_saved new'); [exact Hg | discriminate].
    + exists ([Fetch lat lon s e; Save path f] ++ new')%list.
      rewrite Hev, <- app_assoc, filter_app, length_app, last_saved_app.
      cbn [filter is_fetch app List.length last_saved map fst fetched_rows].
      repeat split; try lia.
      * rewrite Hrows. cbn [rows_of]. rewrite Hstore. now rewrite app_assoc.
      * destruct (last_saved new'); discriminate.
      * intros g Hg. destruct (last_saved new') as [g'|] eqn:Hlast.
        -- apply Hsome. exact Hg.
        -- injection Hg as <-. now apply Hnone.
Qed.

Section Turns.

Variable clock : nat -> datetime.
Variable meteostat : json -> json -> datetime -> datetime -> response.
Variable to_parquet_error : string -> frame -> option exn.

Variables (name : string) (infos : json) (items : list (string * json)).
Variables (path : string) (w : world).

(** X11. An entity whose coordinates cannot be read from its entry stops
    the run at once with the error of the lookup ([KeyError] for a missing
    key, [TypeError] for an entry that is no mapping): the clock is not
    read, the provider is not asked, and the entities after it are not
    processed. *)
Theorem missing_coordinate_stops_run (store : pyobj) (e : exn) :
  getitem infos "latitude" = Raise e
  \/ (exists lat, getitem infos "latitude" = Ok lat
                  /\ getitem infos "longitude" = Raise e) ->
  main_loop clock meteostat to_parquet_error ((name, infos) :: items) store path w
  = (Raise e, w).
Proof.
  intros [Hlat | (lat & Hlat & Hlon)]; cbn [main_loop].
  - now rewrite Hlat, bind_lift_raise.
  - now rewrite Hlat, bind_lift_ok, Hlon, bind_lift_raise.
Qed.

Hypothesis coordinates :
  exists lat lon, getitem infos "latitude" = Ok lat /\ getitem infos "longitude" = Ok lon.

(** X12. A stored timestamp that the resolver cannot parse stops the whole
    run, not only its entity: when the latest time of the entity is [NaT],
    or a well-formed timestamp with a part below the second, the loop
    raises [ValueError] after reading the clock, without asking the
    provider or writing, and the entities after it are not processed. *)
Theorem unparsable_watermark_stops_run (rows : list row) (latest : time_cell) :
  rows_for name rows <> [] ->
  Series_max (map time (rows_for name rows)) = latest ->
  latest = NaT
  \/ (exists t, latest = TS t /\ Timestamp_ok t = true /\ whole_second t = false) ->
  main_loop clock meteostat to_parquet_error ((name, infos) :: items)
    (DataFrame (Table rows)) path w
  = (Raise ValueError, mk_world (S (clock_reads w)) (events w)).
Proof.
  intros Hne Hmax Hbad. destruct coordinates as (lat & lon & Hlat & Hlon).
  apply (main_loop_step_raises clock meteostat to_parquet_error name infos items
           (DataFrame (Table rows)) path w lat lon ValueError Hlat Hlon).
  rewrite get_last_unfold.
  destruct (rows_for name rows) as [|r mine]; [congruence|].
  rewrite Hmax. destruct Hbad as [-> | (t & -> & Hok & Hw)].
  - exact strptime_NaT.
  - now apply strptime_str_fraction.
Qed.

Variables (store : pyobj) (watermark start : datetime).

Hypothesis resolved : get_last_datetime_by_city store name = Ok watermark.
Hypothesis next_hour : datetime_add watermark (timedelta_hours 1) = Ok start.

(** X13. An entity that is up to date stops the run.  When the watermark
    plus one hour is the current hour, the fetch returns [None], the test
    [meteostat_data_by_city.empty] of line 192 raises [AttributeError], and
    the loop ends there: no provider call, no write, and the entities after
    it are not processed. *)
Theorem closed_window_stops_run :
  start = truncate_to_hour (clock (clock_reads w)) ->
  main_loop clock meteostat to_parquet_error ((name, infos) :: items) store path w
  = (Raise AttributeError, mk_world (S (clock_reads w)) (events w)).
Proof.
  intros Hclosed. destruct coordinates as (lat & lon & Hlat & Hlon).
  cbn [main_loop].
  rewrite Hlat, bind_lift_ok, Hlon, bind_lift_ok, bind_now, resolved, bind_lift_ok.
  rewrite (bind_run _ _ _ _ _
             (fetch_closed_window meteostat watermark (clock (clock_reads w)) name
                lat lon _ (eq_trans next_hour (f_equal Ok Hclosed)))).
  reflexivity.
Qed.

Hypothesis window_open : start <> truncate_to_hour (clock (clock_reads w)).

(** X14. When the provider answers an open window with no rows and no
    error, the entity is skipped like on a failure: the loop goes on to the
    remaining entities with the store it had, and the record gains the one
    provider call and no write. *)
Theorem empty_answer_skips_entity (lat lon : json) :
  getitem infos "latitude" = Ok lat ->
  getitem infos "longitude" = Ok lon ->
  meteostat lat lon start (truncate_to_hour (clock (clock_reads w))) = Returns [] ->
  main_loop clock meteostat to_parquet_error ((name, infos) :: items) store path w
  = main_loop clock meteostat to_parquet_error items store path
      (mk_world (S (clock_reads w))
                (events w ++ [Fetch lat lon start
                                (truncate_to_hour (clock (clock_reads w)))])%list).
Proof.
  intros Hlat Hlon Hnone. cbn [main_loop].
  rewrite Hlat, bind_lift_ok, Hlon, bind_lift_ok, bind_now, resolved, bind_lift_ok.
  rewrite (bind_run _ _ _ _ _
             (fetch_open_window meteostat watermark (clock (clock_reads w)) start
                name lat lon _ next_hour window_open)).
  rewrite Hnone. reflexivity.
Qed.

End Turns.

Section Top_up.

Variable clock : nat -> datetime.
Variable meteostat : json -> json -> datetime -> datetime -> response.
Variable to_parquet_error : string -> frame -> option exn.

Variables (name : string) (infos : json) (items : list (string * json)).
Variables (rows : list row) (path : string) (w : world).
Variables (lat lon : json) (watermark start : datetime).
Variables (h : hourly) (data : list hourly).

Let now : datetime := clock (clock_reads w).
Let merged : frame :=
  Table (rows ++ frame_rows (normalise name (h :: data)))%list.

Hypothesis latitude_read : getitem infos "latitude" = Ok lat.
Hypothesis longitude_read : getitem infos "longitude" = Ok lon.
Hypothesis resolved :
  get_last_datetime_by_city (DataFrame (Table rows)) name = Ok watermark.
Hypothesis next_hour : datetime_add watermark (timedelta_hours 1) = Ok start.
Hypothesis window_open : start <> truncate_to_hour now.
Hypothesis answered :
  meteostat lat lon start (truncate_to_hour now) = Returns (h :: data).

Lemma top_up_reaches_the_write :
  main_loop clock meteostat to_parquet_error ((name, infos) :: items)
    (DataFrame (Table rows)) path w
  = bind (save_concatenated_data_to_parquet to_parquet_error (DataFrame merged) path)
         (fun _ => main_loop clock meteostat to_parquet_error items
                     (DataFrame merged) path)
         (mk_world (S (clock_reads w))
                   (events w ++ [Fetch lat lon start (truncate_to_hour now)])%list).
Proof.
  cbn [main_loop].
  rewrite latitude_read, bind_lift_ok, longitude_read, bind_lift_ok, bind_now,
    resolved, bind_lift_ok.
  rewrite (bind_run _ _ _ _ _
             (fetch_open_window meteostat watermark (clock (clock_reads w)) start
                name lat lon _ next_hour window_open)).
  fold now. rewrite answered. unfold delta_of_response, after_fetch.
  cbn [normalise map truth_of_empty frame_rows clock_reads events].
  rewrite bind_lift_ok. cbn match.
  destruct rows as [|r0 rs]; reflexivity.
Qed.

(** X15. When the provider answers an open window with rows, the loop
    appends them, under the entity's name, after the rows of the store,
    writes the whole merged store to the store file before it looks at the
    next entity, and goes on with the merged store. *)
Theorem top_up_is_merged_and_saved :
  to_parquet_error path merged = None ->
  main_loop clock meteostat to_parquet_error ((name, infos) :: items)
    (DataFrame (Table rows)) path w
  = main_loop clock meteostat to_parquet_error items (DataFrame merged) path
      (mk_world (S (clock_reads w))
                (events w ++ [Fetch lat lon start (truncate_to_hour now);
                              Save path merged])%list).
Proof.
  intros Hdisk. rewrite top_up_reaches_the_write.
  unfold bind, save_concatenated_data_to_parquet, emit. rewrite Hdisk.
  cbn [clock_reads events]. now rewrite <- app_assoc.
Qed.

(** X16. A write that fails stops the run with the error of the write: the
    record holds the provider call and no write, the rows just fetched are
    only in memory and are lost with the run, and the entities after it
    are not processed. *)
Theorem failed_write_stops_run (e : exn) :
  to_parquet_error path merged = Some e ->
  main_loop clock meteostat to_parquet_error ((name, infos) :: items)
    (DataFrame (Table rows)) path w
  = (Raise e,
     mk_world (S (clock_reads w))
              (events w ++ [Fetch lat lon start (truncate_to_hour now)])%list).
Proof.
  intros Hdisk. rewrite top_up_reaches_the_write.
  unfold bind, save_concatenated_data_to_parquet, raise. now rewrite Hdisk.
Qed.

End Top_up.

(** ** The driver as a whole *)

(** X17. The driver needs the geocode file to hold a JSON object.  With a
    file that is missing, unreadable, or holds any other JSON value, [main]
    raises before the first entity: nothing is asked of the provider and
    nothing is written, whatever the store file holds. *)
Theorem main_needs_a_json_object
    (files : string -> file) (clock : nat -> datetime)
    (meteostat : json -> json -> datetime -> datetime -> response)
    (to_parquet_error : string -> frame -> option exn) (w : world) :
  (forall items, files "cities_geocode.json" <> JsonFile (JObject items)) ->
  exists e, main files clock meteostat to_parquet_error w = (Raise e, w).
Proof.
  intros Hfile. unfold main, load_cities_info_from_json, json_load.
  destruct (files "cities_geocode.json") as [| |rows|[|b|x|s|l|items]|];
    try (eexists; reflexivity).
  now contradiction (Hfile items).
Qed.

(** X18. With a geocode file that holds an empty JSON object the run ends
    at once and normally: the clock is not read, the provider is not asked
    and nothing is written, even when the store file is missing and the
    store variable holds the class. *)
Theorem main_without_entities
    (files : string -> file) (clock : nat -> datetime)
    (meteostat : json -> json -> datetime -> datetime -> response)
    (to_parquet_error : string -> frame -> option exn) (w : world) :
  files "cities_geocode.json" = JsonFile (JObject []) ->
  main files clock meteostat to_parquet_error w
  = (Ok (load_parquet_weather_data files "weather_data.parquet"), w).
Proof.
  intros Hfile. unfold main, load_cities_info_from_json, json_load.
  now rewrite Hfile.
Qed.

(** ** The geocode bootstrap *)

Section Geocoding.

Variable geocode : string -> result (option (float * float)).

Lemma get_geolocation_found (country_name city_name : string)
    (files : string -> file) (l : list json) (latitude longitude : float) :
  entries_on_disk (files "cities_geocode.json") = Some l ->
  geocode (city_name ++ ", " ++ country_name) = Ok (Some (latitude, longitude)) ->
  InitialData.get_geolocation geocode country_name city_name files
  = Ok (InitialData.write_file "cities_geocode.json"
          (JsonFile (JArray (l ++ [geocode_entry
                                     (city_name ++ ", " ++ country_name)%string
                                     latitude longitude])%list)) files).
Proof.
  intros Hdisk Hfound. unfold InitialData.get_geolocation.
  rewrite Hfound. cbn [bind_result].
  destruct (files "cities_geocode.json") as [| |rows|[|b|x|s|l'|items]|];
    try discriminate; injection Hdisk as <-; reflexivity.
Qed.

(** X19. A successful lookup appends one single-key entry,
    ["<city>, <country>"] to the coordinates found, after the entries the
    geocode file already lists; a missing file, or one whose text is not
    JSON, counts as an empty list; and no other file is touched.  (A file
    of bytes that are not UTF-8 text is none of these: the lookup raises
    and writes nothing.) *)
Theorem geolocation_appends_one_entry (country_name city_name : string)
    (files : string -> file) (l : list json) (latitude longitude : float) :
  entries_on_disk (files "cities_geocode.json") = Some l ->
  geocode (city_name ++ ", " ++ country_name) = Ok (Some (latitude, longitude)) ->
  exists files',
    InitialData.get_geolocation geocode country_name city_name files = Ok files'
    /\ files' "cities_geocode.json"
       = JsonFile (JArray (l ++ [JObject [((city_name ++ ", " ++ country_name)%string,
                                           JObject [("latitude", JNumber latitude);
                                                    ("longitude", JNumber longitude)])]
                                ])%list)
    /\ forall p, p <> "cities_geocode.json" -> files' p = files p.
Proof.
  intros Hdisk Hfound. eexists. split.
  - exact (get_geolocation_found _ _ _ l _ _ Hdisk Hfound).
  - unfold InitialData.write_file. split.
    + reflexivity.
    + intros p Hp. destruct (String.eqb_spec p "cities_geocode.json"); congruence.
Qed.

(** X20. Run over a list of cities with a geocoder that answers every
    query, and from a geocode file that lists entries, is missing, or holds
    text that is not JSON, the bootstrap leaves in the geocode file the
    entries that were there followed by one entry for each city that was
    found, in the order of the list; cities that are not found leave no
    trace, and no other file is touched. *)
Theorem geocode_cities_appends_in_order (cities : list string)
    (files : string -> file) (l : list json) :
  (forall q, exists answer, geocode q = Ok answer) ->
  entries_on_disk (files "cities_geocode.json") = Some l ->
  exists files',
    InitialData.geocode_cities geocode cities files = Ok files'
    /\ entries_on_disk (files' "cities_geocode.json")
       = Some (l ++ found_entries geocode cities)%list
    /\ forall p, p <> "cities_geocode.json" -> files' p = files p.
Proof.
  intros Hanswers. revert files l.
  induction cities as [|c cities IH]; intros files l Hdisk.
  - exists files. cbn. rewrite app_nil_r. auto.
  - cbn [InitialData.geocode_cities found_entries flat_map].
    destruct (Hanswers (c ++ ", " ++ "Brasil")) as ([[latitude longitude]|] & Hc).
    + rewrite (get_geolocation_found "Brasil" c files l latitude longitude Hdisk Hc).
      cbn [bind_result]. rewrite Hc.
      set (entry := geocode_entry (c ++ ", " ++ "Brasil") latitude longitude).
      set (files1 := InitialData.write_file _ _ files).
      destruct (IH files1 (l ++ [entry])%list) as (files' & Hrun & Hentries & Hother).
      { reflexivity. }
      exists files'. split; [exact Hrun|]. split.
      * rewrite Hentries, <- app_assoc. reflexivity.
      * intros p Hp. rewrite (Hother p Hp). unfold files1, InitialData.write_file.
        destruct (String.eqb_spec p "cities_geocode.json"); congruence.
    + unfold InitialData.get_geolocation at 1. rewrite Hc. cbn [bind_result app].
      apply IH. exact Hdisk.
Qed.

(** X21. Whatever the disk held before, the geocode file that a successful
    lookup of the bootstrap leaves behind stops the driver: [main] raises
    [AttributeError] at [cities_infos.items()] before the first entity,
    with nothing asked of the provider and nothing written. *)
Theorem bootstrap_output_stops_main (country_name city_name : string)
    (files files' : string -> file) (latitude longitude : float)
    (clock : nat -> datetime)
    (meteostat : json -> json -> datetime -> datetime -> response)
    (to_parquet_error : string -> frame -> option exn) (w : world) :
  geocode (city_name ++ ", " ++ country_name) = Ok (Some (latitude, longitude)) ->
  InitialData.get_geolocation geocode country_name city_name files = Ok files' ->
  main files' clock meteostat to_parquet_error w = (Raise AttributeError, w).
Proof.
  intros Hfound Hrun.
  destruct (entries_on_disk (files "cities_geocode.json")) as [l|] eqn:Hdisk.
  - rewrite (get_geolocation_found _ _ _ l _ _ Hdisk Hfound) in Hrun.
    injection Hrun as <-.
    apply (main_rejects_array _ clock meteostat to_parquet_error
             (l ++ [geocode_entry (city_name ++ ", " ++ country_name)%string
                      latitude longitude])%list).
    reflexivity.
  - unfold InitialData.get_geolocation in Hrun. rewrite Hfound in Hrun.
    cbn [bind_result] in Hrun.
    destruct (files "cities_geocode.json") as [| |rows|[|b|x|s|l'|items]|];
      discriminate.
Qed.

End Geocoding.

(** ** The backfill of the bootstrap *)

Section Backfilling.

Variable meteostat : json -> json -> datetime -> datetime -> response.

Lemma bind_coords_place (p : place) (vars : Backfill.locals) :
  bind_result (dict_items (place_entry p))
              (fun items => Backfill.bind_coords items vars)
  = Ok (Backfill.mk_locals (Some (fst p)) (Some (JNumber (fst (snd p))))
                           (Some (JNumber (snd (snd p))))).
Proof. destruct p as [local [latitude longitude]]. reflexivity. Qed.

Lemma backfill_city_place (p : place) (vars : Backfill.locals) (acc : list row)
    (w : world) :
  (forall e,
     meteostat (JNumber (fst (snd p))) (JNumber (snd (snd p)))
               Backfill.start Backfill.end_ <> Fails e) ->
  exists vars',
    Backfill.backfill_city meteostat (place_entry p) vars (gathered acc) w
    = (Backfill.Done (vars', gathered (acc ++ place_rows meteostat p)%list),
       mk_world (clock_reads w) (events w ++ [place_call p])%list).
Proof.
  intros Hup. unfold Backfill.backfill_city.
  rewrite bind_coords_place.
  cbn [Backfill.read_var Backfill.var_latitude Backfill.var_longitude
       Backfill.var_name].
  unfold place_rows, place_call, after_fetch.
  destruct (meteostat (JNumber (fst (snd p))) (JNumber (snd (snd p)))
                      Backfill.start Backfill.end_) as [e | [|h data]] eqn:Hanswer.
  - now contradiction (Hup e).
  - eexists. cbn [delta_of_response frame_rows]. rewrite app_nil_r. reflexivity.
  - cbn [delta_of_response]. destruct acc as [|a acc]; eexists; reflexivity.
Qed.

Lemma backfill_loop_places (places : list place) (vars : Backfill.locals)
    (acc : list row) (w : world) :
  (forall p e, In p places ->
     meteostat (JNumber (fst (snd p))) (JNumber (snd (snd p)))
               Backfill.start Backfill.end_ <> Fails e) ->
  Backfill.backfill_loop meteostat (map place_entry places) vars (gathered acc) w
  = (Backfill.Done (gathered (acc ++ flat_map (place_rows meteostat) places)%list),
     mk_world (clock_reads w) (events w ++ map place_call places)%list).
Proof.
  revert vars acc w. induction places as [|p places IH]; intros vars acc w Hup.
  - cbn. rewrite !app_nil_r. now destruct w.
  - cbn [map Backfill.backfill_loop flat_map].
    destruct (backfill_city_place p vars acc w) as (vars' & ->).
    { intros e. apply Hup. now left. }
    rewrite IH by (intros q e Hq; apply Hup; now right).
    cbn [clock_reads events]. now rewrite <- !app_assoc.
Qed.

Variable to_parquet_error : string -> frame -> option exn.

(** X22. The backfill reads back what the lookups wrote.  On a geocode file
    that lists single-key entries as [get_geolocation] writes them, and
    with a provider that does not fail, the loop asks the provider once for
    every entry, in the order of the file, with the coordinates of the
    entry and the fixed window from 2021-01-01 20:00 to 2024-11-15.  When
    some answer has rows, the rows of all the answers, in that order and
    each under the text of its entry, are written to the store file in one
    frame, or the error of the write ends the run.  When no answer has
    rows, the variable still holds the class and line 125 raises
    [ValueError]: nothing is written. *)
Theorem backfill_reads_bootstrap_entries (files : string -> file)
    (places : list place) (w : world) :
  files "cities_geocode.json" = JsonFile (JArray (map place_entry places)) ->
  (forall p e, In p places ->
     meteostat (JNumber (fst (snd p))) (JNumber (snd (snd p)))
               Backfill.start Backfill.end_ <> Fails e) ->
  let asked := (events w ++ map place_call places)%list in
  let rows := flat_map (place_rows meteostat) places in
  (rows = [] ->
   Backfill.backfill meteostat to_parquet_error files w
   = (Backfill.Failed (Backfill.Exn ValueError), mk_world (clock_reads w) asked))
  /\ (rows <> [] ->
      match to_parquet_error "weather_data.parquet" (Table rows) with
      | None =>
          Backfill.backfill meteostat to_parquet_error files w
          = (Backfill.Done tt,
             mk_world (clock_reads w)
                      (asked ++ [Save "weather_data.parquet" (Table rows)])%list)
      | Some e =>
          Backfill.backfill meteostat to_parquet_error files w
          = (Backfill.Failed (Backfill.Exn e), mk_world (clock_reads w) asked)
      end).
Proof.
  intros Hfile Hup asked rows.
  assert (Hrun :
    Backfill.backfill meteostat to_parquet_error files w
    = Backfill.write_backfill to_parquet_error (gathered rows)
        (mk_world (clock_reads w) asked)).
  { unfold Backfill.backfill, json_load. rewrite Hfile.
    cbn [bind_result Backfill.iterate].
    change DataFrame_class with (gathered []).
    rewrite (backfill_loop_places places Backfill.unbound [] w Hup). reflexivity. }
  rewrite Hrun. split.
  - intros ->. reflexivity.
  - intros Hrows. destruct rows as [|r rows']; [congruence|].
    cbn [gathered Backfill.write_backfill].
    destruct (to_parquet_error "weather_data.parquet" (Table (r :: rows')));
      reflexivity.
Qed.

(** X23. In the backfill a failure of the provider is fatal: the call is
    outside any [try], so the exception of the first entry whose query
    fails ends the loop, the frame gathered so far is dropped, and the
    entries after it are not asked for. *)
Theorem backfill_provider_failure_is_fatal (p : place) (rest : list json)
    (vars : Backfill.locals) (df : pyobj) (w : world) (e : exn) :
  meteostat (JNumber (fst (snd p))) (JNumber (snd (snd p)))
            Backfill.start Backfill.end_ = Fails e ->
  Backfill.backfill_loop meteostat (place_entry p :: rest) vars df w
  = (Backfill.Failed (Backfill.Exn e),
     mk_world (clock_reads w) (events w ++ [place_call p])%list).
Proof.
  intros Hdown. cbn [Backfill.backfill_loop]. unfold Backfill.backfill_city.
  rewrite bind_coords_place.
  cbn [Backfill.read_var Backfill.var_latitude Backfill.var_longitude].
  rewrite Hdown. reflexivity.
Qed.

(** X24. An entry that is an empty mapping binds no local.  As the first
    element of the file it ends the backfill with [UnboundLocalError] on
    [latitude], before any call of the provider; after another entry it is
    processed with the name and the coordinates that entry left in the
    locals, exactly as if that entry were listed a second time. *)
Theorem backfill_empty_mapping (p : place) (df : pyobj) (w : world) :
  let left_by_p :=
    Backfill.mk_locals (Some (fst p)) (Some (JNumber (fst (snd p))))
                       (Some (JNumber (snd (snd p)))) in
  Backfill.backfill_city meteostat (JObject []) Backfill.unbound df w
  = (Backfill.Failed (Backfill.UnboundLocalError "latitude"), w)
  /\ bind_result (dict_items (place_entry p))
                 (fun items => Backfill.bind_coords items Backfill.unbound)
     = Ok left_by_p
  /\ Backfill.backfill_city meteostat (JObject []) left_by_p df w
     = Backfill.backfill_city meteostat (place_entry p) left_by_p df w.
Proof.
  intros left_by_p. split; [reflexivity|]. split; [apply bind_coords_place|].
  unfold Backfill.backfill_city. rewrite bind_coords_place. reflexivity.
Qed.

End Backfilling.

(** ** The further properties at concrete inputs *)

Import More.

Lemma sample_times_ok : times_ok store.
Proof.
  intros r t Hin Ht. cbn in Hin.
  destruct Hin as [<- | [<- | [<- | [<- | []]]]]; cbn in Ht;
    try discriminate; injection Ht as <-; reflexivity.
Defined.

Lemma sample_delta_times_ok : times_ok delta.
Proof.
  intros r t Hin Ht. cbn in Hin.
  destruct Hin as [<- | [<- | []]]; cbn in Ht; injection Ht as <-; reflexivity.
Defined.

Lemma watermark_is_whole_second_witness :
  datetime_ok (on_the_hour 10) = true /\ microsecond (on_the_hour 10) = 0.
Proof.
  apply (watermark_is_whole_second (DataFrame (Table store)) uberaba (on_the_hour 10)).
  vm_compute. reflexivity.
Defined.

Lemma merge_never_lowers_watermark_witness :
  datetime_value (on_the_hour 10) <= datetime_value (on_the_hour 12).
Proof.
  apply (merge_never_lowers_watermark store (Table delta)
           (Table (store ++ delta)%list) uberaba (on_the_hour 10) (on_the_hour 12)).
  - exact sample_times_ok.
  - exact sample_delta_times_ok.
  - discriminate.
  - vm_compute. reflexivity.
  - reflexivity.
  - vm_compute. reflexivity.
Defined.

Lemma merge_of_others_keeps_watermark_witness :
  exists merged,
    concat_weather_data_by_city (DataFrame (Table delta)) (DataFrame (Table store))
    = Ok (DataFrame merged)
    /\ get_last_datetime_by_city (DataFrame merged) frutal
       = get_last_datetime_by_city (DataFrame (Table store)) frutal.
Proof.
  apply (merge_of_others_keeps_watermark store (Table delta) frutal). reflexivity.
Defined.

Lemma provider_asked_iff_window_open_witness :
  (on_the_hour 11 = truncate_to_hour (half_past 12) ->
   fetch_hourly_data_from_meteostat_by_city two_hours (on_the_hour 10) (half_past 12)
     uberaba latitude longitude w0
   = (Ok PyNone, w0))
  /\ (on_the_hour 11 <> truncate_to_hour (half_past 12) ->
      exists f,
        fetch_hourly_data_from_meteostat_by_city two_hours (on_the_hour 10)
          (half_past 12) uberaba latitude longitude w0
        = (Ok (DataFrame f),
           mk_world (clock_reads w0)
                    (events w0 ++ [Fetch latitude longitude (on_the_hour 11)
                                     (truncate_to_hour (half_past 12))])%list)).
Proof.
  apply (provider_asked_iff_window_open two_hours (on_the_hour 10) (half_past 12)
           (on_the_hour 11) uberaba latitude longitude w0).
  reflexivity.
Defined.

Lemma fetched_frame_follows_answer_witness :
  frame_rows (Table delta)
  = map (fun h => mk_row uberaba (TS (h_time h)) (h_temp h) (h_rhum h) (h_prcp h)
                         (h_wspd h))
        (match two_hours latitude longitude (on_the_hour 11)
                 (truncate_to_hour (half_past 12)) with
         | Returns data => data
         | Fails _ => []
         end)
  /\ forall r, In r (frame_rows (Table delta)) -> city r = uberaba.
Proof.
  apply (fetched_frame_follows_answer two_hours (on_the_hour 10) (half_past 12)
           (on_the_hour 11) uberaba latitude longitude w0 (Table delta)).
  - reflexivity.
  - vm_compute. reflexivity.
Defined.

Lemma fetch_contains_provider_errors_witness :
  (year (on_the_hour 10) < 9999 ->
   exists x,
     fst (fetch_hourly_data_from_meteostat_by_city down (on_the_hour 10)
            (half_past 12) uberaba latitude longitude w0) = Ok x
     /\ (x = PyNone \/ exists f, x = DataFrame f))
  /\ (forall e,
        fst (fetch_hourly_data_from_meteostat_by_city down (on_the_hour 10)
               (half_past 12) uberaba latitude longitude w0) = Raise e ->
        e = OverflowError
        /\ snd (fetch_hourly_data_from_meteostat_by_city down (on_the_hour 10)
                  (half_past 12) uberaba latitude longitude w0) = w0).
Proof.
  apply (fetch_contains_provider_errors down (on_the_hour 10) (half_past 12) uberaba
           latitude longitude w0).
  reflexivity.
Defined.

Lemma finished_run_is_append_only_witness :
  exists new,
    [Fetch latitude longitude (on_the_hour 11) (on_the_hour 12);
     Save "weather_data.parquet" (Table (store ++ delta)%list)]
    = (events w0 ++ new)%list
    /\ 1%nat = (clock_reads w0 + List.length [(uberaba, infos)])%nat
    /\ List.length (filter is_fetch new) = List.length [(uberaba, infos)]
    /\ rows_of (DataFrame (Table (store ++ delta)%list))
       = (rows_of (DataFrame (Table store))
          ++ fetched_rows two_hours (map fst [(uberaba, infos)])
               (filter is_fetch new))%list
    /\ (last_saved new = None ->
        DataFrame (Table (store ++ delta)%list) = DataFrame (Table store))
    /\ (forall f, last_saved new = Some f ->
                  DataFrame (Table (store ++ delta)%list) = DataFrame f).
Proof.
  apply (finished_run_is_append_only (fun _ => half_past 12) two_hours disk_ok
           [(uberaba, infos)] (DataFrame (Table store))
           (DataFrame (Table (store ++ delta)%list)) "weather_data.parquet" w0
           (mk_world 1 [Fetch latitude longitude (on_the_hour 11) (on_the_hour 12);
                        Save "weather_data.parquet" (Table (store ++ delta)%list)])).
  vm_compute. reflexivity.
Defined.

Lemma missing_coordinate_stops_run_witness :
  main_loop (fun _ => half_past 12) two_hours disk_ok
    [(uberaba, half_entry); (frutal, infos)] (DataFrame (Table store))
    "weather_data.parquet" w0
  = (Raise KeyError, w0).
Proof.
  apply (missing_coordinate_stops_run (fun _ => half_past 12) two_hours disk_ok
           uberaba half_entry [(frutal, infos)] "weather_data.parquet" w0
           (DataFrame (Table store)) KeyError).
  right. exists latitude. split; reflexivity.
Defined.

Lemma unparsable_watermark_stops_run_witness :
  main_loop (fun _ => half_past 12) two_hours disk_ok
    [(araguari, infos); (uberaba, infos)] (DataFrame (Table store))
    "weather_data.parquet" w0
  = (Raise ValueError, mk_world 1 []).
Proof.
  apply (unparsable_watermark_stops_run (fun _ => half_past 12) two_hours disk_ok
           araguari infos [(uberaba, infos)] "weather_data.parquet" w0
           (ex_intro _ latitude (ex_intro _ longitude (conj eq_refl eq_refl)))
           store NaT).
  - discriminate.
  - reflexivity.
  - left. reflexivity.
Defined.

Lemma closed_window_stops_run_witness :
  main_loop (fun _ => half_past 11) two_hours disk_ok
    [(uberaba, infos); (frutal, infos)] (DataFrame (Table store))
    "weather_data.parquet" w0
  = (Raise AttributeError, mk_world 1 []).
Proof.
  apply (closed_window_stops_run (fun _ => half_past 11) two_hours disk_ok
           uberaba infos [(frutal, infos)] "weather_data.parquet" w0
           (ex_intro _ latitude (ex_intro _ longitude (conj eq_refl eq_refl)))
           (DataFrame (Table store)) (on_the_hour 10) (on_the_hour 11)).
  - vm_compute. reflexivity.
  - reflexivity.
  - reflexivity.
Defined.

Lemma empty_answer_skips_entity_witness :
  main_loop (fun _ => half_past 12) silent disk_ok
    [(uberaba, infos); (prata, infos)] (DataFrame (Table store))
    "weather_data.parquet" w0
  = main_loop (fun _ => half_past 12) silent disk_ok
      [(prata, infos)] (DataFrame (Table store)) "weather_data.parquet"
      (mk_world 1 [Fetch latitude longitude (on_the_hour 11) (on_the_hour 12)]).
Proof.
  apply (empty_answer_skips_entity (fun _ => half_past 12) silent disk_ok
           uberaba infos [(prata, infos)] "weather_data.parquet" w0
           (DataFrame (Table store)) (on_the_hour 10) (on_the_hour 11)).
  - vm_compute. reflexivity.
  - reflexivity.
  - discriminate.
  - reflexivity.
  - reflexivity.
  - reflexivity.
Defined.

Lemma top_up_is_merged_and_saved_witness :
  main_loop (fun _ => half_past 12) two_hours disk_ok
    [(uberaba, infos); (prata, infos)] (DataFrame (Table store))
    "weather_data.parquet" w0
  = main_loop (fun _ => half_past 12) two_hours disk_ok
      [(prata, infos)] (DataFrame (Table (store ++ delta)%list))
      "weather_data.parquet"
      (mk_world 1 [Fetch latitude longitude (on_the_hour 11) (on_the_hour 12);
                   Save "weather_data.parquet" (Table (store ++ delta)%list)]).
Proof.
  apply (top_up_is_merged_and_saved (fun _ => half_past 12) two_hours disk_ok
           uberaba infos [(prata, infos)] store "weather_data.parquet" w0
           latitude longitude (on_the_hour 10) (on_the_hour 11)
           (reading (ts 2024 1 1 11 0 0 0 0)) [reading (ts 2024 1 1 12 0 0 0 0)]).
  - reflexivity.
  - reflexivity.
  - vm_compute. reflexivity.
  - reflexivity.
  - discriminate.
  - reflexivity.
  - reflexivity.
Defined.

Lemma failed_write_stops_run_witness :
  main_loop (fun _ => half_past 12) two_hours disk_full
    [(uberaba, infos); (prata, infos)] (DataFrame (Table store))
    "weather_data.parquet" w0
  = (Raise OSError,
     mk_world 1 [Fetch latitude longitude (on_the_hour 11) (on_the_hour 12)]).
Proof.
  apply (failed_write_stops_run (fun _ => half_past 12) two_hours disk_full
           uberaba infos [(prata, infos)] store "weather_data.parquet" w0
           latitude longitude (on_the_hour 10) (on_the_hour 11)
           (reading (ts 2024 1 1 11 0 0 0 0)) [reading (ts 2024 1 1 12 0 0 0 0)]).
  - reflexivity.
  - reflexivity.
  - vm_compute. reflexivity.
  - reflexivity.
  - discriminate.
  - reflexivity.
  - reflexivity.
Defined.

Lemma main_needs_a_json_object_witness :
  exists e,
    main nothing_on_disk (fun _ => half_past 12) two_hours disk_ok w0 = (Raise e, w0).
Proof.
  apply (main_needs_a_json_object nothing_on_disk (fun _ => half_past 12) two_hours
           disk_ok w0).
  intros items. discriminate.
Defined.

Lemma main_without_entities_witness :
  main (disk (JObject []) None) (fun _ => half_past 12) two_hours disk_ok w0
  = (Ok (load_parquet_weather_data (disk (JObject []) None) "weather_data.parquet"),
     w0).
Proof.
  apply (main_without_entities (disk (JObject []) None) (fun _ => half_past 12)
           two_hours disk_ok w0).
  reflexivity.
Defined.

Lemma geolocation_appends_one_entry_witness :
  exists files',
    InitialData.get_geolocation picky_geocoder "Brasil" "Uberaba"
      (disk (JArray [cities_as_dict]) None)
    = Ok files'
    /\ files' "cities_geocode.json"
       = JsonFile (JArray ([cities_as_dict]
                           ++ [JObject [(("Uberaba" ++ ", " ++ "Brasil")%string,
                                         JObject [("latitude", latitude);
                                                  ("longitude", longitude)])]])%list)
    /\ forall p, p <> "cities_geocode.json" ->
                 files' p = disk (JArray [cities_as_dict]) None p.
Proof.
  apply (geolocation_appends_one_entry picky_geocoder "Brasil" "Uberaba"
           (disk (JArray [cities_as_dict]) None) [cities_as_dict]); reflexivity.
Defined.

Lemma geocode_cities_appends_in_order_witness :
  exists files',
    InitialData.geocode_cities picky_geocoder ["Araguari"; "Uberaba"; "Frutal"]
      nothing_on_disk
    = Ok files'
    /\ entries_on_disk (files' "cities_geocode.json")
       = Some ([] ++ found_entries picky_geocoder
                       ["Araguari"; "Uberaba"; "Frutal"])%list
    /\ forall p, p <> "cities_geocode.json" -> files' p = nothing_on_disk p.
Proof.
  apply (geocode_cities_appends_in_order picky_geocoder
           ["Araguari"; "Uberaba"; "Frutal"] nothing_on_disk []).
  - intros q. unfold picky_geocoder.
    destruct (String.eqb q "Uberaba, Brasil"); eexists; reflexivity.
  - reflexivity.
Defined.

Lemma bootstrap_output_stops_main_witness :
  main (InitialData.write_file "cities_geocode.json"
          (JsonFile (JArray [place_entry uberaba_place])) nothing_on_disk)
       (fun _ => half_past 12) two_hours disk_ok w0
  = (Raise AttributeError, w0).
Proof.
  apply (bootstrap_output_stops_main picky_geocoder "Brasil" "Uberaba"
           nothing_on_disk _ (fst (snd uberaba_place)) (snd (snd uberaba_place))
           (fun _ => half_past 12) two_hours disk_ok w0); reflexivity.
Defined.

Lemma backfill_reads_bootstrap_entries_witness :
  let files := disk (JArray [place_entry uberaba_place]) None in
  let asked := (events w0 ++ map place_call [uberaba_place])%list in
  let rows := flat_map (place_rows two_hours) [uberaba_place] in
  (rows = [] ->
   Backfill.backfill two_hours disk_ok files w0
   = (Backfill.Failed (Backfill.Exn ValueError), mk_world (clock_reads w0) asked))
  /\ (rows <> [] ->
      match disk_ok "weather_data.parquet" (Table rows) with
      | None =>
          Backfill.backfill two_hours disk_ok files w0
          = (Backfill.Done tt,
             mk_world (clock_reads w0)
                      (asked ++ [Save "weather_data.parquet" (Table rows)])%list)
      | Some e =>
          Backfill.backfill two_hours disk_ok files w0
          = (Backfill.Failed (Backfill.Exn e), mk_world (clock_reads w0) asked)
      end).
Proof.
  apply (backfill_reads_bootstrap_entries two_hours disk_ok
           (disk (JArray [place_entry uberaba_place]) None) [uberaba_place] w0).
  - reflexivity.
  - intros p e _. discriminate.
Defined.

Lemma backfill_provider_failure_is_fatal_witness :
  Backfill.backfill_loop down [place_entry uberaba_place; place_entry uberaba_place]
    Backfill.unbound DataFrame_class w0
  = (Backfill.Failed (Backfill.Exn (ProviderFailure 503)),
     mk_world (clock_reads w0) (events w0 ++ [place_call uberaba_place])%list).
Proof.
  apply (backfill_provider_failure_is_fatal down uberaba_place
           [place_entry uberaba_place] Backfill.unbound DataFrame_class w0
           (ProviderFailure 503)).
  reflexivity.
Defined.
